(** * Spectral projection decomposition: the Schlomka 2008 negative
    log-likelihood cost function of RTK

    Source: [rtkSimplexSpectralProjectionsDecompositionImageFilter.h].

    The C++ code computes on [float].  This development reads every finite
    [float] as the real number it denotes and every operation as the exact
    operation on reals: rounding, overflow and underflow are not modelled.
    The two operations of the source that leave the finite numbers on finite
    operands, [std::log] of a number that is not positive and a division by
    zero, produce the value [None] of type [fp]. *)

From Stdlib Require Import Reals Lra Lia List ZArith Bool Arith.
From Stdlib Require Import Sorting.Sorted.
From Stdlib Require Strings.String.
Import ListNotations.

Local Open Scope R_scope.

(** ** Numbers *)

(** A computed [float]: [Some x] is the finite number [x]; [None] says that an
    infinity or a NaN occurred while the value was computed. *)
Definition fp : Type := option R.

Definition fp_lift2 (op : R -> R -> R) (x y : fp) : fp :=
  match x, y with
  | Some a, Some b => Some (op a b)
  | _, _ => None
  end.

Definition fp_add : fp -> fp -> fp := fp_lift2 Rplus.
Definition fp_sub : fp -> fp -> fp := fp_lift2 Rminus.
Definition fp_mul : fp -> fp -> fp := fp_lift2 Rmult.

(** [x / y]: dividing by zero gives an infinity or a NaN. *)
Definition fp_div (x y : fp) : fp :=
  match x, y with
  | Some a, Some b => if Req_dec_T b 0 then None else Some (a / b)
  | _, _ => None
  end.

(** [std::exp]. *)
Definition std_exp (x : R) : R := exp x.

(** [std::log]: minus infinity at zero, NaN below. *)
Definition std_log (x : R) : fp :=
  if Rlt_dec 0 x then Some (ln x) else None.

(** An exception leaves the function; a value is returned. *)
Inductive result (A : Type) : Type :=
| Returns (a : A)
| ExceptionObject.

Arguments Returns {A} a.
Arguments ExceptionObject {A}.

(** ** The containers and operations of ITK and VNL the source uses *)

Module ITK.

(** [for (unsigned int i = 0; i < n; i++) body]: the body runs for
    [i = 0, 1, ..., n - 1] in this order on the state [s]. *)
Fixpoint for_loop {S : Type} (n : nat) (body : nat -> S -> S) (s : S) : S :=
  match n with
  | O => s
  | Datatypes.S k => body k (for_loop k body s)
  end.

(** [itk::Vector<float, N>] and [itk::Array<double>]: the entries by index;
    the length is the template argument of the type that holds it. *)
Definition Vector : Type := nat -> R.

(** [itk::Matrix<float, NRows, NColumns>], and a vector of vectors: row, then
    column. *)
Definition Matrix : Type := nat -> nat -> R.

(** [v.Fill(x)]. *)
Definition Fill {A : Type} (x : A) : nat -> A := fun _ => x.

(** [v[i] = x]. *)
Definition set_at {A : Type} (v : nat -> A) (i : nat) (x : A) : nat -> A :=
  fun j => if Nat.eqb j i then x else v j.

(** [M[r][c] = x]. *)
Definition set_entry (M : Matrix) (r c : nat) (x : R) : Matrix :=
  fun i j => if Nat.eqb i r && Nat.eqb j c then x else M i j.

(** [itk::Matrix::operator*(const Vector &)]: for every row,
    [sum = 0; for c: sum += M(r, c) * vect[c]]. *)
Definition mat_vec (NColumns : nat) (M : Matrix) (vect : Vector) : Vector :=
  fun r => for_loop NColumns (fun c sum => sum + M r c * vect c) 0.

(** [itk::Vector::operator*(const Self &)]: the inner product. *)
Definition inner_product (N : nat) (u v : Vector) : R :=
  for_loop N (fun i value => value + u i * v i) 0.

(** [element_product] of VNL. *)
Definition element_product (u v : Vector) : Vector :=
  fun i => u i * v i.

(** [get_diagonal] of VNL. *)
Definition get_diagonal (M : Matrix) : Vector :=
  fun i => M i i.

End ITK.

Import ITK.

(** ** The cost function *)

(** [itk::SingleValuedCostFunction::ParametersType] (an array of [double]) and
    [MeasureType]. *)
Definition ParametersType : Type := Vector.
Definition MeasureType : Type := fp.

(** The data members of [Schlomka2008NegativeLogLikelihood<NbMaterials,
    NumberOfSpectralBins, NumberOfEnergies>]. *)
Record Schlomka2008NegativeLogLikelihood
  (NbMaterials NumberOfSpectralBins NumberOfEnergies : nat) : Type :=
  { m_MaterialAttenuations : nat -> Vector;
    m_DetectorResponse : Matrix;
    m_IncidentSpectrum : Vector;
    m_DetectorCounts : Vector }.

Arguments m_MaterialAttenuations {_ _ _} _ _ _.
Arguments m_DetectorResponse {_ _ _} _ _ _.
Arguments m_IncidentSpectrum {_ _ _} _ _.
Arguments m_DetectorCounts {_ _ _} _ _.

Section CostFunction.

Context {NbMaterials NumberOfSpectralBins NumberOfEnergies : nat}.

(** [itk::Matrix::GetInverse] is ITK's and not part of the repository: it
    either throws or returns a matrix. *)
Variable GetInverse : Matrix -> result Matrix.

#[local] Abbreviation Self :=
  (Schlomka2008NegativeLogLikelihood NbMaterials NumberOfSpectralBins NumberOfEnergies).

(** [itkSetMacro]: the four setters. *)
Definition SetDetectorCounts (self : Self) (arg : Vector) : Self :=
  {| m_MaterialAttenuations := m_MaterialAttenuations self;
     m_DetectorResponse := m_DetectorResponse self;
     m_IncidentSpectrum := m_IncidentSpectrum self;
     m_DetectorCounts := arg |}.

Definition SetDetectorResponse (self : Self) (arg : Matrix) : Self :=
  {| m_MaterialAttenuations := m_MaterialAttenuations self;
     m_DetectorResponse := arg;
     m_IncidentSpectrum := m_IncidentSpectrum self;
     m_DetectorCounts := m_DetectorCounts self |}.

Definition SetIncidentSpectrum (self : Self) (arg : Vector) : Self :=
  {| m_MaterialAttenuations := m_MaterialAttenuations self;
     m_DetectorResponse := m_DetectorResponse self;
     m_IncidentSpectrum := arg;
     m_DetectorCounts := m_DetectorCounts self |}.

Definition SetMaterialAttenuations (self : Self) (arg : nat -> Vector) : Self :=
  {| m_MaterialAttenuations := arg;
     m_DetectorResponse := m_DetectorResponse self;
     m_IncidentSpectrum := m_IncidentSpectrum self;
     m_DetectorCounts := m_DetectorCounts self |}.

(** Lines 78-98. *)
Definition GetAttenuatedIncidentSpectrum (self : Self) (lineIntegrals : ParametersType)
  : Vector :=
  for_loop NumberOfEnergies
    (fun e attenuatedIncidentSpectrum =>
       let totalAttenuation :=
         for_loop NbMaterials
           (fun m totalAttenuation =>
              totalAttenuation + lineIntegrals m * m_MaterialAttenuations self m e)
           0 in
       set_at attenuatedIncidentSpectrum e
         (m_IncidentSpectrum self e * std_exp (- totalAttenuation)))
    (Fill 0).

(** Lines 72-76. *)
Definition ForwardModel (self : Self) (lineIntegrals : ParametersType) : Vector :=
  mat_vec NumberOfEnergies (m_DetectorResponse self)
    (GetAttenuatedIncidentSpectrum self lineIntegrals).

(** Lines 104-109 of [GetCramerRaoLowerBound]: the local [weights]. *)
Definition CramerRaoWeights (self : Self) (lineIntegrals : ParametersType) : Vector :=
  let lambdas := ForwardModel self lineIntegrals in
  let weights := element_product lambdas lambdas in
  element_product weights (m_DetectorCounts self).

(** Lines 103 and 111-134 of [GetCramerRaoLowerBound]: the local [Fischer]
    (the default constructor of [itk::Matrix] fills it with zeros). *)
Definition FischerMatrix (self : Self) (lineIntegrals : ParametersType) : Matrix :=
  let attenuatedIncidentSpectrum := GetAttenuatedIncidentSpectrum self lineIntegrals in
  let weights := CramerRaoWeights self lineIntegrals in
  for_loop NbMaterials
    (fun a Fischer =>
       for_loop NbMaterials
         (fun a_prime Fischer =>
            let intermediate_a :=
              element_product attenuatedIncidentSpectrum (m_MaterialAttenuations self a) in
            let intermediate_a_prime :=
              element_product attenuatedIncidentSpectrum
                (m_MaterialAttenuations self a_prime) in
            let partial_derivative_a :=
              mat_vec NumberOfEnergies (m_DetectorResponse self) intermediate_a in
            let partial_derivative_a_prime :=
              mat_vec NumberOfEnergies (m_DetectorResponse self) intermediate_a_prime in
            let partial_derivative_a_prime :=
              element_product partial_derivative_a partial_derivative_a_prime in
            set_entry Fischer a a_prime
              (inner_product NumberOfSpectralBins partial_derivative_a_prime weights))
         Fischer)
    (fun _ _ => 0).

(** Lines 100-143.  No [try] surrounds the call of [GetInverse]: its exception
    leaves the function. *)
Definition GetCramerRaoLowerBound (self : Self) (lineIntegrals : ParametersType)
  : result (nat -> fp) :=
  match GetInverse (FischerMatrix self lineIntegrals) with
  | ExceptionObject => ExceptionObject
  | Returns inverse =>
      let diag : nat -> fp := fun mat => Some (get_diagonal inverse mat) in
      Returns
        (for_loop NbMaterials
           (fun mat diag => set_at diag mat (fp_div (Some 1) (diag mat)))
           diag)
  end.

(** Lines 152-164. *)
Definition GetValue (self : Self) (parameters : ParametersType) : MeasureType :=
  let lambdas := ForwardModel self parameters in
  for_loop NumberOfSpectralBins
    (fun i measure =>
       fp_add measure
         (fp_sub (Some (lambdas i))
            (fp_mul (std_log (lambdas i)) (Some (m_DetectorCounts self i)))))
    (Some 0).

(** Lines 166-169. *)
Definition GetNumberOfParameters (self : Self) : nat := NbMaterials.

End CostFunction.

(** ** The formulas of the specification *)

(** The sum of [f i] over [i < n]. *)
Definition sum_over (n : nat) (f : nat -> R) : R :=
  fold_right Rplus 0 (map f (seq 0 n)).

(** The same sum of terms that may fail to be finite. *)
Definition fp_sum_over (n : nat) (f : nat -> fp) : fp :=
  fold_right fp_add (Some 0) (map f (seq 0 n)).

Section SpecFormulas.

Context {NbMaterials NumberOfSpectralBins NumberOfEnergies : nat}.

#[local] Abbreviation Self :=
  (Schlomka2008NegativeLogLikelihood NbMaterials NumberOfSpectralBins NumberOfEnergies).

(** [attenuated[e] = incident[e] * exp(- sum_m lineIntegral[m] * attenuation[m][e])]. *)
Definition spec_attenuated (self : Self) (lineIntegral : ParametersType) (e : nat) : R :=
  m_IncidentSpectrum self e
  * exp (- sum_over NbMaterials (fun m => lineIntegral m * m_MaterialAttenuations self m e)).

(** [sum_e response[b][e] * incident[e] * exp(- sum_m lineIntegral[m] * attenuation[m][e])]. *)
Definition spec_counts (self : Self) (lineIntegral : ParametersType) (b : nat) : R :=
  sum_over NumberOfEnergies
    (fun e =>
       m_DetectorResponse self b e * m_IncidentSpectrum self e
       * exp (- sum_over NbMaterials
                  (fun m => lineIntegral m * m_MaterialAttenuations self m e))).

(** [response . incident]. *)
Definition spec_unattenuated (self : Self) (b : nat) : R :=
  sum_over NumberOfEnergies
    (fun e => m_DetectorResponse self b e * m_IncidentSpectrum self e).

(** [measure = sum_b (lambda_b - counts_b * ln(lambda_b))]; the logarithm has
    no value at a number that is not positive. *)
Definition spec_measure (self : Self) (lambda : Vector) : fp :=
  fp_sum_over NumberOfSpectralBins
    (fun b =>
       fp_sub (Some (lambda b))
         (fp_mul (Some (m_DetectorCounts self b)) (std_log (lambda b)))).

(** [w_b = counts_b / lambda_b^2]. *)
Definition spec_weight (self : Self) (lambda : Vector) (b : nat) : R :=
  m_DetectorCounts self b / (lambda b * lambda b).

(** [d lambda_b / d a = sum_e response[b][e] * attenuated[e] * attenuation[a][e]]. *)
Definition spec_partial_derivative (self : Self) (attenuated : Vector) (a b : nat) : R :=
  sum_over NumberOfEnergies
    (fun e => m_DetectorResponse self b e * attenuated e * m_MaterialAttenuations self a e).

(** [F[a][a'] = sum_b w_b * (d lambda_b / d a) * (d lambda_b / d a')]. *)
Definition spec_Fisher (self : Self) (w attenuated : Vector) (a a' : nat) : R :=
  sum_over NumberOfSpectralBins
    (fun b =>
       w b * spec_partial_derivative self attenuated a b
       * spec_partial_derivative self attenuated a' b).

(** Row [b] of the detector response is nonnegative and has a positive entry
    at an energy where the incident spectrum is positive. *)
Definition response_row_sees_spectrum (self : Self) (b : nat) : Prop :=
  (forall e, (e < NumberOfEnergies)%nat -> 0 <= m_DetectorResponse self b e)
  /\ exists e, (e < NumberOfEnergies)%nat
       /\ 0 < m_DetectorResponse self b e /\ 0 < m_IncidentSpectrum self e.

(** The incident spectrum is nonnegative at every energy where row [b] of the
    detector response is positive. *)
Definition spectrum_nonnegative_on_row (self : Self) (b : nat) : Prop :=
  forall e, (e < NumberOfEnergies)%nat ->
    0 < m_DetectorResponse self b e -> 0 <= m_IncidentSpectrum self e.

End SpecFormulas.

(** An [n] by [n] matrix is singular: it sends some vector that is not zero to
    zero. *)
Definition singular (n : nat) (M : Matrix) : Prop :=
  exists v : Vector,
    (exists i, (i < n)%nat /\ v i <> 0)
    /\ forall r, (r < n)%nat -> sum_over n (fun c => M r c * v c) = 0.

(** ** The filter *)

Module DecompositionFilter.

(** [itk::Vector<unsigned int, NumberOfSpectralBins + 1>]: the entries in
    order, each an [unsigned int]. *)
Definition ThresholdsType : Type := list Z.

Record SimplexSpectralProjectionsDecompositionImageFilter : Type :=
  { m_MaterialAttenuations : nat -> Vector;
    m_DetectorResponse : Matrix;
    m_Thresholds : ThresholdsType;
    m_NumberOfIterations : Z }.

(** [itkSetMacro(Thresholds, ThresholdsType)]: the setter stores its argument
    and checks nothing. *)
Definition SetThresholds (self : SimplexSpectralProjectionsDecompositionImageFilter)
  (arg : ThresholdsType) : SimplexSpectralProjectionsDecompositionImageFilter :=
  {| m_MaterialAttenuations := m_MaterialAttenuations self;
     m_DetectorResponse := m_DetectorResponse self;
     m_Thresholds := arg;
     m_NumberOfIterations := m_NumberOfIterations self |}.

(** [itkGetMacro(Thresholds, ThresholdsType)]. *)
Definition GetThresholds (self : SimplexSpectralProjectionsDecompositionImageFilter)
  : ThresholdsType :=
  m_Thresholds self.

(** [itkSetMacro(NumberOfIterations, unsigned int)]. *)
Definition SetNumberOfIterations (self : SimplexSpectralProjectionsDecompositionImageFilter)
  (arg : Z) : SimplexSpectralProjectionsDecompositionImageFilter :=
  {| m_MaterialAttenuations := m_MaterialAttenuations self;
     m_DetectorResponse := m_DetectorResponse self;
     m_Thresholds := m_Thresholds self;
     m_NumberOfIterations := arg |}.

Inductive Error : Type :=
| ConfigurationError.

(** Every entry is at most the next one. *)
Fixpoint non_decreasing (t : list Z) : bool :=
  match t with
  | a :: rest =>
      match rest with
      | b :: _ => (a <=? b)%Z && non_decreasing rest
      | [] => true
      end
  | [] => true
  end.

(** Modelled from the spec: the validation of Thresholds at setup.  The source
    declares [BeforeThreadedGenerateData] (line 263); its body is in
    [rtkSimplexSpectralProjectionsDecompositionImageFilter.hxx], which is not
    among the source files.  The spec: "non-decreasing, first >= 0, last =
    number of energies". *)
Definition ThresholdsAreValid (NumberOfEnergies : nat) (t : ThresholdsType) : bool :=
  match t with
  | [] => false
  | first :: _ =>
      non_decreasing t && (0 <=? first)%Z && (last t first =? Z.of_nat NumberOfEnergies)%Z
  end.

(** Modelled from the spec: the setup step, of which the source has the
    declaration only (line 263).  The spec: "any sequence violating
    non-decreasing order or endpoint constraints must raise ConfigurationError
    at setup". *)
Definition BeforeThreadedGenerateData (NumberOfEnergies : nat)
  (self : SimplexSpectralProjectionsDecompositionImageFilter) : option Error :=
  if ThresholdsAreValid NumberOfEnergies (m_Thresholds self)
  then None
  else Some ConfigurationError.

(** What a run of the filter leaves: the pixels it processed, in order, and
    the error or the outputs. *)
Record Run (Pixel Output : Type) : Type :=
  { processed : list Pixel;
    outcome : Error + list Output }.

Arguments processed {Pixel Output} _.
Arguments outcome {Pixel Output} _.

(** Modelled from the spec: the run of the filter over a region, of which the
    source has the declarations only (lines 263 and 264).  The spec:
    "configuration errors abort the whole operation before processing
    begins"; then every pixel of the region is decomposed on its own. *)
Definition GenerateData {Pixel Output : Type} (NumberOfEnergies : nat)
  (decompose : Pixel -> Output)
  (self : SimplexSpectralProjectionsDecompositionImageFilter)
  (region : list Pixel) : Run Pixel Output :=
  match BeforeThreadedGenerateData NumberOfEnergies self with
  | Some e => {| processed := []; outcome := inl e |}
  | None => {| processed := region; outcome := inr (map decompose region) |}
  end.

End DecompositionFilter.

(** ** Concrete tables and objects *)

(** The line integrals that are all zero. *)
Definition zero_line_integrals : ParametersType := fun _ => 0.

(** One material, one bin, one energy: attenuation 1, response 1, incident
    fluence 2, one photon counted. *)
Definition one_bin_object : Schlomka2008NegativeLogLikelihood 1 1 1 :=
  {| m_MaterialAttenuations := fun _ _ => 1;
     m_DetectorResponse := fun _ _ => 1;
     m_IncidentSpectrum := fun _ => 2;
     m_DetectorCounts := fun _ => 1 |}.

(** One material, one bin, one energy, and no incident photon. *)
Definition dark_object : Schlomka2008NegativeLogLikelihood 1 1 1 :=
  {| m_MaterialAttenuations := fun _ _ => 1;
     m_DetectorResponse := fun _ _ => 1;
     m_IncidentSpectrum := fun _ => 0;
     m_DetectorCounts := fun _ => 1 |}.

(** One material, one bin, two energies: the response row is [1, 1], the
    incident spectrum is [1, -2]. *)
Definition signed_spectrum_object : Schlomka2008NegativeLogLikelihood 1 1 2 :=
  {| m_MaterialAttenuations := fun _ _ => 0;
     m_DetectorResponse := fun _ _ => 1;
     m_IncidentSpectrum := fun e => match e with O => 1 | _ => -2 end;
     m_DetectorCounts := fun _ => 1 |}.

(** Two materials with the same attenuation curve, one bin, one energy. *)
Definition twin_materials_object : Schlomka2008NegativeLogLikelihood 2 1 1 :=
  {| m_MaterialAttenuations := fun _ _ => 1;
     m_DetectorResponse := fun _ _ => 1;
     m_IncidentSpectrum := fun _ => 2;
     m_DetectorCounts := fun _ => 1 |}.

(** Values for the parameter [GetInverse] at sizes 1 and 2: the exception on
    a zero determinant, the inverse otherwise. *)
Definition GetInverse1 (M : Matrix) : result Matrix :=
  if Req_dec_T (M 0%nat 0%nat) 0
  then ExceptionObject
  else Returns (fun _ _ => 1 / M 0%nat 0%nat).

Definition determinant2 (M : Matrix) : R :=
  M 0%nat 0%nat * M 1%nat 1%nat - M 0%nat 1%nat * M 1%nat 0%nat.

Definition GetInverse2 (M : Matrix) : result Matrix :=
  if Req_dec_T (determinant2 M) 0
  then ExceptionObject
  else Returns
         (fun i j =>
            match i, j with
            | O, O => M 1%nat 1%nat / determinant2 M
            | O, _ => - M 0%nat 1%nat / determinant2 M
            | _, O => - M 1%nat 0%nat / determinant2 M
            | _, _ => M 0%nat 0%nat / determinant2 M
            end).

(** ** Further notions for the cost function *)

(** The quadratic form [sum_a sum_a' v_a * M[a][a'] * v_a'] of an [n] by [n]
    matrix. *)
Definition quadratic_form (n : nat) (M : Matrix) (v : Vector) : R :=
  sum_over n (fun a => v a * sum_over n (fun a' => M a a' * v a')).

(** The line integrals with [t] added to that of material [a]. *)
Definition shift_line_integral (lineIntegrals : ParametersType) (a : nat) (t : R)
  : ParametersType :=
  fun m => if (m =? a)%nat then lineIntegrals m + t else lineIntegrals m.

(** Lines 124 and 127 of [GetCramerRaoLowerBound]: the local
    [partial_derivative_a] for material [a]. *)
Definition partial_derivative_a {NbMaterials NumberOfSpectralBins NumberOfEnergies : nat}
  (self : Schlomka2008NegativeLogLikelihood NbMaterials NumberOfSpectralBins NumberOfEnergies)
  (lineIntegrals : ParametersType) (a : nat) : Vector :=
  let attenuatedIncidentSpectrum := GetAttenuatedIncidentSpectrum self lineIntegrals in
  let intermediate_a :=
    element_product attenuatedIncidentSpectrum (m_MaterialAttenuations self a) in
  mat_vec NumberOfEnergies (m_DetectorResponse self) intermediate_a.

(** One material, one bin, one energy, and a pixel that counted no photon. *)
Definition no_count_object : Schlomka2008NegativeLogLikelihood 1 1 1 :=
  {| m_MaterialAttenuations := fun _ _ => 1;
     m_DetectorResponse := fun _ _ => 1;
     m_IncidentSpectrum := fun _ => 2;
     m_DetectorCounts := fun _ => 0 |}.

(** One material, one bin, one energy: the count 2 is the one the forward
    model predicts at line integral zero. *)
Definition matched_object : Schlomka2008NegativeLogLikelihood 1 1 1 :=
  {| m_MaterialAttenuations := fun _ _ => 1;
     m_DetectorResponse := fun _ _ => 1;
     m_IncidentSpectrum := fun _ => 2;
     m_DetectorCounts := fun _ => 2 |}.

(** The line integral 1 for every material. *)
Definition unit_line_integrals : ParametersType := fun _ => 1.

(** ** The projection of a geometric phantom

    Source: [rtkProjectGeometricPhantomImageFilter.hxx]. *)

Module ProjectGeometricPhantom.

Import Stdlib.Strings.String.

(** [std::string::empty]. *)
Definition empty (s : string) : bool :=
  match s with
  | EmptyString => true
  | String _ _ => false
  end.

(** [std::vector::back]: the last element; a vector that is empty has
    none. *)
Fixpoint back {A : Type} (v : list A) : option A :=
  match v with
  | [] => None
  | x :: rest =>
      match rest with
      | [] => Some x
      | _ :: _ => back rest
      end
  end.

(** What the source uses of RTK and ITK and does not define: the types of
    images, regions, geometries, convex shapes, rotation matrices and vectors;
    the identity matrix that [SetIdentity] stores; the three motions of a
    convex shape; the two readers of a configuration file, which throw or
    give the convex shapes of the phantom they read; and the filter
    [RayConvexIntersectionImageFilter] on an input of either image type.  A
    pipeline object is read as what its update gives for a requested region:
    an exception with its message, or the image. *)
Class Toolkit : Type :=
  { InputImage : Type;
    OutputImage : Type;
    Region : Type;
    Geometry : Type;
    ConvexShape : Type;
    RotationMatrix : Type;
    VectorType : Type;
    SetIdentity : RotationMatrix;
    Rotate : RotationMatrix -> ConvexShape -> ConvexShape;
    Translate : VectorType -> ConvexShape -> ConvexShape;
    Rescale : VectorType -> ConvexShape -> ConvexShape;
    ForbildPhantomFileReader : string -> string + list ConvexShape;
    GeometricPhantomFileReader : string -> string + list ConvexShape;
    RayConvexIntersectionOfInput :
      Geometry -> ConvexShape -> (Region -> string + InputImage) ->
      Region -> string + OutputImage;
    RayConvexIntersectionOfOutput :
      Geometry -> ConvexShape -> (Region -> string + OutputImage) ->
      Region -> string + OutputImage }.

(** The members [GenerateData] reads and writes, and of the pipeline the
    input, the geometry and the requested region of the output.
    [m_GeometricPhantom] is a pointer: [None] is the null pointer, [Some] the
    convex shapes of the phantom it points to. *)
Record ProjectGeometricPhantomImageFilter `{Toolkit} : Type :=
  { m_GeometricPhantom : option (list ConvexShape);
    m_PhantomScale : VectorType;
    m_OriginOffset : VectorType;
    m_RotationMatrix : RotationMatrix;
    m_ConfigFile : string;
    m_IsForbildConfigFile : bool;
    GetInput : Region -> string + InputImage;
    GetGeometry : Geometry;
    GetRequestedRegion : Region }.

(** How a call of [GenerateData] ends: the image grafted on the output, an
    exception, or the use of a null pointer or of the back of an empty
    vector, which the language leaves undefined. *)
Inductive Outcome (A : Type) : Type :=
| Grafted (image : A)
| Exception (what : string)
| Undefined.

Arguments Grafted {A} image.
Arguments Exception {A} what.
Arguments Undefined {A}.

Section Filter.

Context `{Toolkit}.

(** Lines 36-41: the constructor, on the object with the initial values of
    the header. *)
Definition Constructor (self : ProjectGeometricPhantomImageFilter)
  : ProjectGeometricPhantomImageFilter :=
  {| m_GeometricPhantom := m_GeometricPhantom self;
     m_PhantomScale := m_PhantomScale self;
     m_OriginOffset := m_OriginOffset self;
     m_RotationMatrix := SetIdentity;
     m_ConfigFile := m_ConfigFile self;
     m_IsForbildConfigFile := m_IsForbildConfigFile self;
     GetInput := GetInput self;
     GetGeometry := GetGeometry self;
     GetRequestedRegion := GetRequestedRegion self |}.

(** [this->m_GeometricPhantom = ...] of lines 55 and 63. *)
Definition assign_GeometricPhantom (self : ProjectGeometricPhantomImageFilter)
  (phantom : option (list ConvexShape)) : ProjectGeometricPhantomImageFilter :=
  {| m_GeometricPhantom := phantom;
     m_PhantomScale := m_PhantomScale self;
     m_OriginOffset := m_OriginOffset self;
     m_RotationMatrix := m_RotationMatrix self;
     m_ConfigFile := m_ConfigFile self;
     m_IsForbildConfigFile := m_IsForbildConfigFile self;
     GetInput := GetInput self;
     GetGeometry := GetGeometry self;
     GetRequestedRegion := GetRequestedRegion self |}.

(** Lines 46-65: the configuration file, when one is named, is read by the
    reader of its format and its phantom replaces the one of the filter; an
    exception of the reader leaves the function. *)
Definition ReadConfigFile (self : ProjectGeometricPhantomImageFilter)
  : string + ProjectGeometricPhantomImageFilter :=
  if negb (empty (m_ConfigFile self))
  then
    if m_IsForbildConfigFile self
    then
      match ForbildPhantomFileReader (m_ConfigFile self) with
      | inl what => inl what
      | inr phantom => inr (assign_GeometricPhantom self (Some phantom))
      end
    else
      match GeometricPhantomFileReader (m_ConfigFile self) with
      | inl what => inl what
      | inr phantom => inr (assign_GeometricPhantom self (Some phantom))
      end
  else inr self.

(** Lines 75-96: the body of the loop over the convex shapes.  The clone of
    the shape is rotated, translated and rescaled; the new filter takes the
    output of the last projector, or the input of this filter when there is
    no projector yet, and is pushed back. *)
Definition AddProjector (self : ProjectGeometricPhantomImageFilter)
  (projectors : list (Region -> string + OutputImage)) (convexShape : ConvexShape)
  : list (Region -> string + OutputImage) :=
  let co := convexShape in
  let co := Rotate (m_RotationMatrix self) co in
  let co := Translate (m_OriginOffset self) co in
  let co := Rescale (m_PhantomScale self) co in
  match back projectors with
  | Some previous =>
      projectors ++ [RayConvexIntersectionOfOutput (GetGeometry self) co previous]
  | None =>
      projectors ++ [RayConvexIntersectionOfInput (GetGeometry self) co (GetInput self)]
  end.

(** Lines 43-102: the object after the call, and how the call ends. *)
Definition GenerateData (self : ProjectGeometricPhantomImageFilter)
  : ProjectGeometricPhantomImageFilter * Outcome OutputImage :=
  match ReadConfigFile self with
  | inl what => (self, Exception what)
  | inr self =>
      match m_GeometricPhantom self with
      | None => (self, Undefined)
      | Some cov =>
          match cov with
          | [] => (self, Exception "Empty phantom")
          | _ :: _ =>
              let projectors := fold_left (AddProjector self) cov [] in
              match back projectors with
              | None => (self, Undefined)
              | Some last =>
                  match last (GetRequestedRegion self) with
                  | inl what => (self, Exception what)
                  | inr image => (self, Grafted image)
                  end
              end
          end
      end
  end.

End Filter.

(** A toolkit to run the filter on: a convex shape is a number, an image the
    list of the shapes intersected so far; no reader finds a shape. *)
Definition counting_toolkit : Toolkit :=
  {| InputImage := list nat;
     OutputImage := list nat;
     Region := unit;
     Geometry := unit;
     ConvexShape := nat;
     RotationMatrix := nat;
     VectorType := nat;
     SetIdentity := 0%nat;
     Rotate := fun r co => (co + r)%nat;
     Translate := fun t co => (co + t)%nat;
     Rescale := fun k co => (co * k)%nat;
     ForbildPhantomFileReader := fun _ => inr [];
     GeometricPhantomFileReader := fun _ => inr [];
     RayConvexIntersectionOfInput :=
       fun _ co input region =>
         match input region with
         | inl what => inl what
         | inr image => inr (image ++ [co])
         end;
     RayConvexIntersectionOfOutput :=
       fun _ co input region =>
         match input region with
         | inl what => inl what
         | inr image => inr (image ++ [co])
         end |}.

(** A filter on this toolkit with the phantom of the shapes 1, 2 and 3, no
    configuration file, no rotation, the offset 10 and the scale 2. *)
Definition counting_filter
  : @ProjectGeometricPhantomImageFilter counting_toolkit :=
  @Build_ProjectGeometricPhantomImageFilter counting_toolkit
    (Some [1; 2; 3]%nat) 2%nat 10%nat 0%nat EmptyString false
    (fun _ => inr []) tt tt.

(** The same filter with a configuration file named. *)
Definition configured_filter
  : @ProjectGeometricPhantomImageFilter counting_toolkit :=
  @Build_ProjectGeometricPhantomImageFilter counting_toolkit
    (Some [1; 2; 3]%nat) 2%nat 10%nat 0%nat "phantom.txt" false
    (fun _ => inr []) tt tt.

End ProjectGeometricPhantom.

(** Case analysis on the comparisons of loop indices a goal contains. *)
Ltac index_cases :=
  repeat match goal with
         | |- context [Nat.eqb ?i ?n] => destruct (Nat.eqb_spec i n); subst
         | |- context [Nat.ltb ?i ?n] => destruct (Nat.ltb_spec i n)
         end;
  simpl; try lia; try reflexivity.

(** * Properties *)

(** ** Loops and sums *)

Lemma for_loop_ext {S : Type} (n : nat) (body1 body2 : nat -> S -> S) (s : S) :
  (forall i t, (i < n)%nat -> body1 i t = body2 i t) ->
  for_loop n body1 s = for_loop n body2 s.
Proof.
  induction n as [|n IH]; intros Hbody; simpl.
  - reflexivity.
  - rewrite IH by (intros; apply Hbody; lia).
    apply Hbody. lia.
Qed.

Lemma fold_right_Rplus_init (l : list R) (a : R) :
  fold_right Rplus a l = fold_right Rplus 0 l + a.
Proof.
  induction l as [|x l IH]; simpl.
  - lra.
  - rewrite IH. lra.
Qed.

Lemma sum_over_0 (f : nat -> R) : sum_over 0 f = 0.
Proof. reflexivity. Qed.

Lemma sum_over_S (n : nat) (f : nat -> R) :
  sum_over (S n) f = sum_over n f + f n.
Proof.
  unfold sum_over.
  rewrite seq_S, map_app, fold_right_app. simpl.
  rewrite fold_right_Rplus_init. lra.
Qed.

(** The accumulation [sum = 0; for i: sum += f i] is the sum of the terms. *)
Lemma for_loop_sum (n : nat) (f : nat -> R) :
  for_loop n (fun i sum => sum + f i) 0 = sum_over n f.
Proof.
  induction n as [|n IH].
  - reflexivity.
  - simpl. rewrite IH, sum_over_S. reflexivity.
Qed.

Lemma sum_over_ext (n : nat) (f g : nat -> R) :
  (forall i, (i < n)%nat -> f i = g i) -> sum_over n f = sum_over n g.
Proof.
  induction n as [|n IH]; intros H.
  - reflexivity.
  - rewrite !sum_over_S, IH by (intros; apply H; lia).
    rewrite (H n) by lia. reflexivity.
Qed.

Lemma sum_over_zero (n : nat) (f : nat -> R) :
  (forall i, (i < n)%nat -> f i = 0) -> sum_over n f = 0.
Proof.
  induction n as [|n IH]; intros H.
  - reflexivity.
  - rewrite sum_over_S, IH by (intros; apply H; lia).
    rewrite (H n) by lia. lra.
Qed.

Lemma sum_over_nonneg (n : nat) (f : nat -> R) :
  (forall i, (i < n)%nat -> 0 <= f i) -> 0 <= sum_over n f.
Proof.
  induction n as [|n IH]; intros H.
  - rewrite sum_over_0. lra.
  - rewrite sum_over_S.
    assert (0 <= sum_over n f) by (apply IH; intros; apply H; lia).
    assert (0 <= f n) by (apply H; lia).
    lra.
Qed.

Lemma sum_over_pos (n : nat) (f : nat -> R) (k : nat) :
  (forall i, (i < n)%nat -> 0 <= f i) -> (k < n)%nat -> 0 < f k ->
  0 < sum_over n f.
Proof.
  induction n as [|n IH]; intros Hf Hk Hpos.
  - lia.
  - rewrite sum_over_S.
    assert (Hn : 0 <= f n) by (apply Hf; lia).
    destruct (Nat.eq_dec k n) as [->|Hne].
    + assert (0 <= sum_over n f) by (apply sum_over_nonneg; intros; apply Hf; lia).
      lra.
    + assert (0 < sum_over n f) by (apply IH; [intros; apply Hf; lia | lia | exact Hpos]).
      lra.
Qed.

(** A loop that stores [g i] at index [i] for every [i < n]. *)
Lemma for_loop_set_at {A : Type} (n : nat) (g : nat -> A) (v : nat -> A) (i : nat) :
  for_loop n (fun e w => set_at w e (g e)) v i = if (i <? n)%nat then g i else v i.
Proof.
  induction n as [|n IH]; simpl.
  - reflexivity.
  - unfold set_at at 1. rewrite IH. index_cases.
Qed.

Section CostFunctionProperties.

Context {NbMaterials NumberOfSpectralBins NumberOfEnergies : nat}.

#[local] Abbreviation Self :=
  (Schlomka2008NegativeLogLikelihood NbMaterials NumberOfSpectralBins NumberOfEnergies).

(** The total attenuation the inner loop of lines 88-92 accumulates. *)
Lemma totalAttenuation_sum (self : Self) (lineIntegrals : ParametersType) (e : nat) :
  for_loop NbMaterials
    (fun m totalAttenuation =>
       totalAttenuation + lineIntegrals m * m_MaterialAttenuations self m e) 0
  = sum_over NbMaterials (fun m => lineIntegrals m * m_MaterialAttenuations self m e).
Proof.
  apply (for_loop_sum NbMaterials
           (fun m => lineIntegrals m * m_MaterialAttenuations self m e)).
Qed.

(** Every entry of the attenuated spectrum: the formula below the number of
    energies, the zero of [Fill(0)] from there on. *)
Lemma GetAttenuatedIncidentSpectrum_entry (self : Self) (lineIntegrals : ParametersType)
  (e : nat) :
  GetAttenuatedIncidentSpectrum self lineIntegrals e
  = if (e <? NumberOfEnergies)%nat then spec_attenuated self lineIntegrals e else 0.
Proof.
  unfold GetAttenuatedIncidentSpectrum, spec_attenuated, std_exp.
  rewrite <- totalAttenuation_sum.
  exact (for_loop_set_at NumberOfEnergies
           (fun e =>
              m_IncidentSpectrum self e
              * exp (- for_loop NbMaterials
                         (fun m totalAttenuation =>
                            totalAttenuation
                            + lineIntegrals m * m_MaterialAttenuations self m e) 0))
           (Fill 0) e).
Qed.

Lemma GetAttenuatedIncidentSpectrum_below (self : Self) (lineIntegrals : ParametersType)
  (e : nat) :
  (e < NumberOfEnergies)%nat ->
  GetAttenuatedIncidentSpectrum self lineIntegrals e = spec_attenuated self lineIntegrals e.
Proof.
  intros He. rewrite GetAttenuatedIncidentSpectrum_entry.
  rewrite (proj2 (Nat.ltb_lt e NumberOfEnergies) He). reflexivity.
Qed.

(** The product of a matrix and a vector, row by row. *)
Lemma mat_vec_sum (n : nat) (M : Matrix) (v : Vector) (r : nat) :
  mat_vec n M v r = sum_over n (fun c => M r c * v c).
Proof. apply (for_loop_sum n (fun c => M r c * v c)). Qed.

Lemma inner_product_sum (n : nat) (u v : Vector) :
  inner_product n u v = sum_over n (fun i => u i * v i).
Proof. apply (for_loop_sum n (fun i => u i * v i)). Qed.

Lemma ForwardModel_sum (self : Self) (lineIntegrals : ParametersType) (b : nat) :
  ForwardModel self lineIntegrals b
  = sum_over NumberOfEnergies
      (fun e => m_DetectorResponse self b e * spec_attenuated self lineIntegrals e).
Proof.
  unfold ForwardModel. rewrite mat_vec_sum.
  apply sum_over_ext. intros e He.
  rewrite GetAttenuatedIncidentSpectrum_below by exact He. reflexivity.
Qed.

(** C3.  For every line-integral vector, every entry [e] of
    [GetAttenuatedIncidentSpectrum] is
    [incident[e] * exp(- sum_m lineIntegral[m] * attenuation[m][e])],
    [ForwardModel] is the detector response matrix times that vector, and its
    entry for bin [b] is
    [sum_e response[b][e] * incident[e] * exp(- sum_m lineIntegral[m] * attenuation[m][e])]. *)
Theorem ForwardModel_formula (self : Self) (lineIntegrals : ParametersType)
  (b e : nat) (He : (e < NumberOfEnergies)%nat) :
  GetAttenuatedIncidentSpectrum self lineIntegrals e
  = m_IncidentSpectrum self e
    * exp (- sum_over NbMaterials
               (fun m => lineIntegrals m * m_MaterialAttenuations self m e))
  /\ ForwardModel self lineIntegrals b
     = sum_over NumberOfEnergies
         (fun e' =>
            m_DetectorResponse self b e'
            * GetAttenuatedIncidentSpectrum self lineIntegrals e')
  /\ ForwardModel self lineIntegrals b = spec_counts self lineIntegrals b.
Proof.
  split; [|split].
  - apply GetAttenuatedIncidentSpectrum_below. exact He.
  - unfold ForwardModel. apply mat_vec_sum.
  - rewrite ForwardModel_sum. unfold spec_counts, spec_attenuated.
    apply sum_over_ext. intros e' _. ring.
Qed.

(** With line integrals that are all zero nothing is attenuated. *)
Lemma spec_attenuated_zero (self : Self) (lineIntegrals : ParametersType) (e : nat) :
  (forall m, (m < NbMaterials)%nat -> lineIntegrals m = 0) ->
  spec_attenuated self lineIntegrals e = m_IncidentSpectrum self e.
Proof.
  intros Hzero. unfold spec_attenuated.
  rewrite sum_over_zero by (intros m Hm; rewrite (Hzero m Hm); ring).
  rewrite Ropp_0, exp_0. ring.
Qed.

(** C7.  For all calibration tables, [ForwardModel] at a line-integral vector
    whose entries are all zero is the detector response matrix applied to the
    incident spectrum: bin [b] receives [sum_e response[b][e] * incident[e]],
    which is entry [b] of [m_DetectorResponse * m_IncidentSpectrum]. *)
Theorem ForwardModel_zero (self : Self) (lineIntegrals : ParametersType) (b : nat)
  (Hzero : forall m, (m < NbMaterials)%nat -> lineIntegrals m = 0) :
  ForwardModel self lineIntegrals b = spec_unattenuated self b
  /\ ForwardModel self lineIntegrals b
     = mat_vec NumberOfEnergies (m_DetectorResponse self) (m_IncidentSpectrum self) b.
Proof.
  assert (H : ForwardModel self lineIntegrals b = spec_unattenuated self b).
  { rewrite ForwardModel_sum. unfold spec_unattenuated.
    apply sum_over_ext. intros e _.
    rewrite spec_attenuated_zero by exact Hzero. reflexivity. }
  split; [exact H|].
  rewrite H, mat_vec_sum. reflexivity.
Qed.

(** *** The cost *)

Lemma fp_add_None_r (x : fp) : fp_add x None = None.
Proof. destruct x; reflexivity. Qed.

Lemma fold_right_fp_add_init (l : list fp) (a : fp) :
  fold_right fp_add a l = fp_add (fold_right fp_add (Some 0) l) a.
Proof.
  induction l as [|x l IH]; simpl.
  - destruct a as [a|]; simpl; [f_equal; lra | reflexivity].
  - rewrite IH.
    destruct x as [x|], (fold_right fp_add (Some 0) l) as [y|], a as [a|];
      simpl; try reflexivity.
    f_equal. lra.
Qed.

Lemma fp_sum_over_S (n : nat) (f : nat -> fp) :
  fp_sum_over (S n) f = fp_add (fp_sum_over n f) (f n).
Proof.
  unfold fp_sum_over.
  rewrite seq_S, map_app, fold_right_app. simpl.
  rewrite fold_right_fp_add_init.
  destruct (f n) as [x|]; simpl.
  - destruct (fold_right fp_add (Some 0) (map f (seq 0 n))); simpl;
      [f_equal; lra | reflexivity].
  - rewrite !fp_add_None_r. reflexivity.
Qed.

(** The accumulation [measure = 0; for i: measure += f i]. *)
Lemma for_loop_fp_sum (n : nat) (f : nat -> fp) :
  for_loop n (fun i measure => fp_add measure (f i)) (Some 0) = fp_sum_over n f.
Proof.
  induction n as [|n IH].
  - reflexivity.
  - simpl. rewrite IH, fp_sum_over_S. reflexivity.
Qed.

Lemma fp_sum_over_ext (n : nat) (f g : nat -> fp) :
  (forall i, (i < n)%nat -> f i = g i) -> fp_sum_over n f = fp_sum_over n g.
Proof.
  induction n as [|n IH]; intros H.
  - reflexivity.
  - rewrite !fp_sum_over_S, IH by (intros; apply H; lia).
    rewrite (H n) by lia. reflexivity.
Qed.

(** A sum of finite terms is finite. *)
Lemma fp_sum_over_Some (n : nat) (f : nat -> fp) (g : nat -> R) :
  (forall i, (i < n)%nat -> f i = Some (g i)) ->
  fp_sum_over n f = Some (sum_over n g).
Proof.
  induction n as [|n IH]; intros H.
  - reflexivity.
  - rewrite fp_sum_over_S, sum_over_S, IH by (intros; apply H; lia).
    rewrite (H n) by lia. reflexivity.
Qed.

(** A sum is not finite exactly when one of its terms is not. *)
Lemma fp_sum_over_None (n : nat) (f : nat -> fp) :
  fp_sum_over n f = None <-> exists i, (i < n)%nat /\ f i = None.
Proof.
  induction n as [|n IH].
  - split.
    + discriminate.
    + intros (i & Hi & _). lia.
  - rewrite fp_sum_over_S. split.
    + intros H. destruct (f n) as [x|] eqn:Hn.
      * destruct (fp_sum_over n f) as [y|] eqn:Hs; [discriminate|].
        destruct (proj1 IH eq_refl) as (i & Hi & Hf).
        exists i. split; [lia | exact Hf].
      * exists n. split; [lia | exact Hn].
    + intros (i & Hi & Hf).
      destruct (Nat.eq_dec i n) as [->|Hne].
      * rewrite Hf. apply fp_add_None_r.
      * rewrite (proj2 IH) by (exists i; split; [lia | exact Hf]).
        reflexivity.
Qed.

Lemma std_log_pos (x : R) : 0 < x -> std_log x = Some (ln x).
Proof.
  intros H. unfold std_log. destruct (Rlt_dec 0 x); [reflexivity | contradiction].
Qed.

Lemma std_log_None (x : R) : std_log x = None <-> x <= 0.
Proof.
  unfold std_log. destruct (Rlt_dec 0 x) as [H|H]; split; intros H'.
  - discriminate.
  - lra.
  - lra.
  - reflexivity.
Qed.

(** The term line 161 adds for bin [i]. *)
Lemma measure_term (lambda count : R) :
  fp_sub (Some lambda) (fp_mul (std_log lambda) (Some count))
  = fp_sub (Some lambda) (fp_mul (Some count) (std_log lambda)).
Proof.
  destruct (std_log lambda) as [l|]; simpl; [|reflexivity].
  f_equal. ring.
Qed.

Lemma measure_term_None (lambda count : R) :
  fp_sub (Some lambda) (fp_mul (std_log lambda) (Some count)) = None <-> lambda <= 0.
Proof.
  rewrite <- std_log_None.
  destruct (std_log lambda) as [l|]; simpl; split; intros H;
    try discriminate; reflexivity.
Qed.

Lemma GetValue_sum (self : Self) (parameters : ParametersType) :
  GetValue self parameters
  = fp_sum_over NumberOfSpectralBins
      (fun i =>
         fp_sub (Some (ForwardModel self parameters i))
           (fp_mul (std_log (ForwardModel self parameters i))
              (Some (m_DetectorCounts self i)))).
Proof.
  unfold GetValue. cbv zeta.
  exact (for_loop_fp_sum NumberOfSpectralBins
           (fun i =>
              fp_sub (Some (ForwardModel self parameters i))
                (fp_mul (std_log (ForwardModel self parameters i))
                   (Some (m_DetectorCounts self i))))).
Qed.

(** [GetValue] where every predicted count is positive. *)
Lemma GetValue_positive (self : Self) (parameters : ParametersType) :
  (forall b, (b < NumberOfSpectralBins)%nat -> 0 < ForwardModel self parameters b) ->
  GetValue self parameters
  = Some (sum_over NumberOfSpectralBins
            (fun b =>
               ForwardModel self parameters b
               - m_DetectorCounts self b * ln (ForwardModel self parameters b))).
Proof.
  intros Hpos. rewrite GetValue_sum.
  apply fp_sum_over_Some. intros i Hi.
  rewrite std_log_pos by (apply Hpos; exact Hi).
  simpl. f_equal. ring.
Qed.

(** C2.  For every parameter vector, [GetValue] returns
    [sum_b (lambda_b - counts_b * ln(lambda_b))] with
    [lambda = ForwardModel(parameters)] and the stored counts; where every
    [lambda_b] is positive this is the real number the formula denotes. *)
Theorem GetValue_formula (self : Self) (parameters : ParametersType) :
  GetValue self parameters = spec_measure self (ForwardModel self parameters)
  /\ ((forall b, (b < NumberOfSpectralBins)%nat -> 0 < ForwardModel self parameters b) ->
      GetValue self parameters
      = Some (sum_over NumberOfSpectralBins
                (fun b =>
                   ForwardModel self parameters b
                   - m_DetectorCounts self b * ln (ForwardModel self parameters b)))).
Proof.
  split.
  - rewrite GetValue_sum. unfold spec_measure.
    apply fp_sum_over_ext. intros i _. apply measure_term.
  - apply GetValue_positive.
Qed.

(** C5, as amended.  [GetValue] has no guard: for every candidate parameter
    vector for which some predicted count [lambda_b] is zero or negative it
    takes the logarithm of that count, which is not finite, and the cost it
    returns is not finite. *)
Theorem GetValue_not_finite (self : Self) (parameters : ParametersType) (b : nat)
  (Hb : (b < NumberOfSpectralBins)%nat)
  (Hlambda : ForwardModel self parameters b <= 0) :
  std_log (ForwardModel self parameters b) = None
  /\ GetValue self parameters = None.
Proof.
  split.
  - apply std_log_None. exact Hlambda.
  - rewrite GetValue_sum. apply fp_sum_over_None.
    exists b. split; [exact Hb|].
    apply measure_term_None. exact Hlambda.
Qed.

(** *** The Cramer-Rao lower bound *)

(** The weights lines 107-109 compute. *)
Lemma CramerRaoWeights_entry (self : Self) (lineIntegrals : ParametersType) (b : nat) :
  CramerRaoWeights self lineIntegrals b
  = ForwardModel self lineIntegrals b * ForwardModel self lineIntegrals b
    * m_DetectorCounts self b.
Proof. reflexivity. Qed.

(** The inner loop of lines 121-133 stores row [a] below column [k]. *)
Lemma for_loop_set_entry_row (k a : nat) (g : nat -> R) (F : Matrix) (i j : nat) :
  for_loop k (fun a_prime Fischer => set_entry Fischer a a_prime (g a_prime)) F i j
  = if ((i =? a)%nat && (j <? k)%nat)%bool then g j else F i j.
Proof.
  induction k as [|k IH]; simpl.
  - rewrite andb_false_r. reflexivity.
  - unfold set_entry at 1. rewrite IH. index_cases.
Qed.

(** Both loops of lines 119-134 store the square below [n] and [m]. *)
Lemma for_loop_set_entry (n m : nat) (g : nat -> nat -> R) (F : Matrix) (i j : nat) :
  for_loop n
    (fun a Fischer =>
       for_loop m (fun a_prime Fischer => set_entry Fischer a a_prime (g a a_prime))
         Fischer) F i j
  = if ((i <? n)%nat && (j <? m)%nat)%bool then g i j else F i j.
Proof.
  induction n as [|n IH]; simpl.
  - reflexivity.
  - rewrite (for_loop_set_entry_row m n (g n)), IH. index_cases.
Qed.

(** The partial derivative lines 124 and 127 compute for material [a]. *)
Lemma partial_derivative_sum (self : Self) (lineIntegrals : ParametersType) (a b : nat) :
  mat_vec NumberOfEnergies (m_DetectorResponse self)
    (element_product (GetAttenuatedIncidentSpectrum self lineIntegrals)
       (m_MaterialAttenuations self a)) b
  = spec_partial_derivative self (spec_attenuated self lineIntegrals) a b.
Proof.
  rewrite mat_vec_sum. unfold spec_partial_derivative, element_product.
  apply sum_over_ext. intros e He.
  rewrite GetAttenuatedIncidentSpectrum_below by exact He. ring.
Qed.

(** Every entry of the Fisher information matrix the loops store. *)
Lemma FischerMatrix_entry (self : Self) (lineIntegrals : ParametersType) (a a' : nat) :
  (a < NbMaterials)%nat -> (a' < NbMaterials)%nat ->
  FischerMatrix self lineIntegrals a a'
  = spec_Fisher self (CramerRaoWeights self lineIntegrals)
      (spec_attenuated self lineIntegrals) a a'.
Proof.
  intros Ha Ha'. unfold FischerMatrix. cbv zeta.
  rewrite (for_loop_set_entry NbMaterials NbMaterials
             (fun a a_prime =>
                inner_product NumberOfSpectralBins
                  (element_product
                     (mat_vec NumberOfEnergies (m_DetectorResponse self)
                        (element_product
                           (GetAttenuatedIncidentSpectrum self lineIntegrals)
                           (m_MaterialAttenuations self a)))
                     (mat_vec NumberOfEnergies (m_DetectorResponse self)
                        (element_product
                           (GetAttenuatedIncidentSpectrum self lineIntegrals)
                           (m_MaterialAttenuations self a_prime))))
                  (CramerRaoWeights self lineIntegrals))).
  rewrite (proj2 (Nat.ltb_lt a NbMaterials) Ha), (proj2 (Nat.ltb_lt a' NbMaterials) Ha').
  simpl. rewrite inner_product_sum. unfold spec_Fisher.
  apply sum_over_ext. intros b _.
  unfold element_product at 1. rewrite !partial_derivative_sum. ring.
Qed.

(** The loop of lines 140-141 replaces every entry below [n] by its
    reciprocal. *)
Lemma for_loop_reciprocal (n : nat) (h : fp -> fp) (diag : nat -> fp) (j : nat) :
  for_loop n (fun mat diag => set_at diag mat (h (diag mat))) diag j
  = if (j <? n)%nat then h (diag j) else diag j.
Proof.
  induction n as [|n IH] in j |- *; simpl.
  - reflexivity.
  - unfold set_at at 1. rewrite !IH. index_cases.
Qed.

Section WithGetInverse.

Variable GetInverse : Matrix -> result Matrix.

Lemma GetCramerRaoLowerBound_throws (self : Self) (lineIntegrals : ParametersType) :
  GetInverse (FischerMatrix self lineIntegrals) = ExceptionObject ->
  GetCramerRaoLowerBound GetInverse self lineIntegrals = ExceptionObject.
Proof.
  intros H. unfold GetCramerRaoLowerBound. rewrite H. reflexivity.
Qed.

Lemma GetCramerRaoLowerBound_returns (self : Self) (lineIntegrals : ParametersType)
  (inverse : Matrix) :
  GetInverse (FischerMatrix self lineIntegrals) = Returns inverse ->
  exists bound,
    GetCramerRaoLowerBound GetInverse self lineIntegrals = Returns bound
    /\ forall mat, (mat < NbMaterials)%nat ->
         bound mat = fp_div (Some 1) (Some (inverse mat mat)).
Proof.
  intros H. unfold GetCramerRaoLowerBound. rewrite H. cbv zeta.
  eexists. split; [reflexivity|].
  intros mat Hmat.
  rewrite (for_loop_reciprocal NbMaterials (fp_div (Some 1))).
  rewrite (proj2 (Nat.ltb_lt mat NbMaterials) Hmat). reflexivity.
Qed.

(** With the weights that lines 107-109 store, whatever they are, the entries
    of the Fisher matrix are
    [F[a][a'] = sum_b weights_b * (d lambda_b / d a) * (d lambda_b / d a')] with
    [d lambda_b / d a = sum_e response[b][e] * attenuated[e] * attenuation[a][e]];
    the function inverts [F] and returns, for every material, the reciprocal of
    the diagonal entry of the inverse. *)
Theorem GetCramerRaoLowerBound_formula (self : Self) (lineIntegrals : ParametersType)
  (inverse : Matrix) (a a' mat : nat)
  (Ha : (a < NbMaterials)%nat) (Ha' : (a' < NbMaterials)%nat)
  (Hmat : (mat < NbMaterials)%nat)
  (Hinverse : GetInverse (FischerMatrix self lineIntegrals) = Returns inverse) :
  FischerMatrix self lineIntegrals a a'
  = sum_over NumberOfSpectralBins
      (fun b =>
         CramerRaoWeights self lineIntegrals b
         * spec_partial_derivative self (spec_attenuated self lineIntegrals) a b
         * spec_partial_derivative self (spec_attenuated self lineIntegrals) a' b)
  /\ exists bound,
       GetCramerRaoLowerBound GetInverse self lineIntegrals = Returns bound
       /\ bound mat = fp_div (Some 1) (Some (inverse mat mat)).
Proof.
  split.
  - rewrite FischerMatrix_entry by assumption. reflexivity.
  - destruct (GetCramerRaoLowerBound_returns self lineIntegrals inverse Hinverse)
      as (bound & Hret & Hbound).
    exists bound. split; [exact Hret | apply Hbound; exact Hmat].
Qed.

(** *** A singular Fisher matrix *)

Lemma GetCramerRaoLowerBound_outcome (self : Self) (lineIntegrals : ParametersType) :
  GetCramerRaoLowerBound GetInverse self lineIntegrals = ExceptionObject
  <-> GetInverse (FischerMatrix self lineIntegrals) = ExceptionObject.
Proof.
  unfold GetCramerRaoLowerBound. split.
  - destruct (GetInverse (FischerMatrix self lineIntegrals)); [discriminate | reflexivity].
  - intros H. rewrite H. reflexivity.
Qed.

End WithGetInverse.

Lemma sum_over_plus (n : nat) (f g : nat -> R) :
  sum_over n (fun i => f i + g i) = sum_over n f + sum_over n g.
Proof.
  induction n as [|n IH].
  - rewrite !sum_over_0. lra.
  - rewrite !sum_over_S, IH. lra.
Qed.

Lemma sum_over_pick (n a : nat) (f : nat -> R) :
  (a < n)%nat ->
  sum_over n (fun c => if (c =? a)%nat then f c else 0) = f a.
Proof.
  induction n as [|n IH]; intros Ha.
  - lia.
  - rewrite sum_over_S.
    destruct (Nat.eqb_spec n a) as [->|Hne].
    + rewrite sum_over_zero; [lra|].
      intros i Hi. destruct (Nat.eqb_spec i a); [lia | reflexivity].
    + rewrite IH by lia. lra.
Qed.

(** Two materials with the same attenuation curve give the Fisher matrix two
    equal columns. *)
Lemma FischerMatrix_twin_columns (self : Self) (lineIntegrals : ParametersType)
  (a a' r : nat) :
  (a < NbMaterials)%nat -> (a' < NbMaterials)%nat -> (r < NbMaterials)%nat ->
  (forall e, (e < NumberOfEnergies)%nat ->
     m_MaterialAttenuations self a e = m_MaterialAttenuations self a' e) ->
  FischerMatrix self lineIntegrals r a = FischerMatrix self lineIntegrals r a'.
Proof.
  intros Ha Ha' Hr Hsame.
  rewrite !FischerMatrix_entry by assumption.
  unfold spec_Fisher. apply sum_over_ext. intros b _.
  f_equal. unfold spec_partial_derivative.
  apply sum_over_ext. intros e He. rewrite (Hsame e He). reflexivity.
Qed.

(** ... and such a matrix is singular. *)
Lemma FischerMatrix_twin_singular (self : Self) (lineIntegrals : ParametersType)
  (a a' : nat) :
  (a < NbMaterials)%nat -> (a' < NbMaterials)%nat -> a <> a' ->
  (forall e, (e < NumberOfEnergies)%nat ->
     m_MaterialAttenuations self a e = m_MaterialAttenuations self a' e) ->
  singular NbMaterials (FischerMatrix self lineIntegrals).
Proof.
  intros Ha Ha' Hne Hsame.
  exists (fun c => if (c =? a)%nat then 1 else if (c =? a')%nat then -1 else 0).
  split.
  - exists a. split; [exact Ha|]. rewrite Nat.eqb_refl. lra.
  - intros r Hr.
    rewrite (sum_over_ext NbMaterials _
               (fun c =>
                  (if (c =? a)%nat then FischerMatrix self lineIntegrals r c else 0)
                  + (if (c =? a')%nat then - FischerMatrix self lineIntegrals r c else 0))).
    + rewrite sum_over_plus.
      rewrite (sum_over_pick NbMaterials a) by exact Ha.
      rewrite (sum_over_pick NbMaterials a' (fun c => - FischerMatrix self lineIntegrals r c))
        by exact Ha'.
      rewrite (FischerMatrix_twin_columns self lineIntegrals a a' r) by assumption.
      lra.
    + intros c _.
      destruct (Nat.eqb_spec c a) as [->|Hca].
      * destruct (Nat.eqb_spec a a'); [contradiction | lra].
      * destruct (Nat.eqb_spec c a'); lra.
Qed.

(** C4.  Let the inversion of ITK throw on every singular matrix.  If the
    Fisher information matrix at the line integrals is singular, as it is when
    two materials have the same attenuation at every energy, then
    [GetCramerRaoLowerBound] does not return variances: the exception leaves
    it. *)
Theorem GetCramerRaoLowerBound_singular (GetInverse : Matrix -> result Matrix)
  (self : Self) (lineIntegrals : ParametersType)
  (Hthrows : forall M, singular NbMaterials M -> GetInverse M = ExceptionObject) :
  (singular NbMaterials (FischerMatrix self lineIntegrals) ->
   GetCramerRaoLowerBound GetInverse self lineIntegrals = ExceptionObject)
  /\ (forall a a',
        (a < NbMaterials)%nat -> (a' < NbMaterials)%nat -> a <> a' ->
        (forall e, (e < NumberOfEnergies)%nat ->
           m_MaterialAttenuations self a e = m_MaterialAttenuations self a' e) ->
        GetCramerRaoLowerBound GetInverse self lineIntegrals = ExceptionObject).
Proof.
  assert (H : singular NbMaterials (FischerMatrix self lineIntegrals) ->
              GetCramerRaoLowerBound GetInverse self lineIntegrals = ExceptionObject).
  { intros Hsing. apply GetCramerRaoLowerBound_throws. apply Hthrows. exact Hsing. }
  split; [exact H|].
  intros a a' Ha Ha' Hne Hsame. apply H.
  apply (FischerMatrix_twin_singular self lineIntegrals a a'); assumption.
Qed.

(** *** Positive predicted counts *)

Lemma spec_attenuated_pos (self : Self) (lineIntegrals : ParametersType) (e : nat) :
  0 < m_IncidentSpectrum self e -> 0 < spec_attenuated self lineIntegrals e.
Proof.
  intros H. unfold spec_attenuated.
  apply Rmult_lt_0_compat; [exact H | apply exp_pos].
Qed.

Lemma spec_attenuated_nonneg (self : Self) (lineIntegrals : ParametersType) (e : nat) :
  0 <= m_IncidentSpectrum self e -> 0 <= spec_attenuated self lineIntegrals e.
Proof.
  intros H. unfold spec_attenuated.
  apply Rmult_le_pos; [exact H | left; apply exp_pos].
Qed.

Lemma ForwardModel_pos (self : Self) (lineIntegrals : ParametersType) (b : nat) :
  response_row_sees_spectrum self b -> spectrum_nonnegative_on_row self b ->
  0 < ForwardModel self lineIntegrals b.
Proof.
  intros (Hresp & e & He & Hre & Hie) Hinc.
  rewrite ForwardModel_sum.
  apply (sum_over_pos NumberOfEnergies _ e).
  - intros i Hi.
    destruct (Hresp i Hi) as [Hpos|Hzero].
    + apply Rmult_le_pos; [left; exact Hpos|].
      apply spec_attenuated_nonneg. apply Hinc; assumption.
    + rewrite <- Hzero. lra.
  - exact He.
  - apply Rmult_lt_0_compat; [exact Hre|].
    apply spec_attenuated_pos. exact Hie.
Qed.

(** C10, as amended.  In exact real arithmetic every entry of
    [GetAttenuatedIncidentSpectrum] is [incident[e]] times a positive
    exponential, so it is positive where [incident[e]] is; every predicted
    count [lambda_b] of [ForwardModel] is positive when row [b] of the detector
    response is nonnegative and positive at an energy where the incident
    spectrum is positive, and the incident spectrum is nonnegative wherever the
    row is positive; when this holds for every bin, [GetValue] takes the
    logarithm of positive numbers only and returns a finite cost. *)
Theorem ForwardModel_positive (self : Self) (lineIntegrals : ParametersType) :
  (forall e, (e < NumberOfEnergies)%nat ->
     GetAttenuatedIncidentSpectrum self lineIntegrals e
     = m_IncidentSpectrum self e
       * exp (- sum_over NbMaterials
                  (fun m => lineIntegrals m * m_MaterialAttenuations self m e))
     /\ 0 < exp (- sum_over NbMaterials
                     (fun m => lineIntegrals m * m_MaterialAttenuations self m e))
     /\ (0 < m_IncidentSpectrum self e ->
         0 < GetAttenuatedIncidentSpectrum self lineIntegrals e))
  /\ (forall b,
        response_row_sees_spectrum self b -> spectrum_nonnegative_on_row self b ->
        0 < ForwardModel self lineIntegrals b)
  /\ ((forall b, (b < NumberOfSpectralBins)%nat ->
         response_row_sees_spectrum self b /\ spectrum_nonnegative_on_row self b) ->
      exists measure, GetValue self lineIntegrals = Some measure).
Proof.
  split; [|split].
  - intros e He. rewrite GetAttenuatedIncidentSpectrum_below by exact He.
    split; [reflexivity|]. split; [apply exp_pos|].
    apply spec_attenuated_pos.
  - intros b. apply ForwardModel_pos.
  - intros Hbins. eexists. apply GetValue_positive.
    intros b Hb. destruct (Hbins b Hb). apply ForwardModel_pos; assumption.
Qed.

End CostFunctionProperties.

(** ** The tables of the examples, evaluated *)

Lemma zero_line_integrals_zero (n m : nat) :
  (m < n)%nat -> zero_line_integrals m = 0.
Proof. reflexivity. Qed.

Lemma one_bin_lambda : ForwardModel one_bin_object zero_line_integrals 0%nat = 2.
Proof.
  rewrite ForwardModel_sum. unfold sum_over. simpl.
  rewrite spec_attenuated_zero by (intros; reflexivity).
  simpl. lra.
Qed.

Lemma one_bin_Fischer : FischerMatrix one_bin_object zero_line_integrals 0%nat 0%nat = 16.
Proof.
  rewrite FischerMatrix_entry by lia.
  unfold spec_Fisher, spec_partial_derivative, sum_over. simpl.
  rewrite CramerRaoWeights_entry, one_bin_lambda.
  rewrite spec_attenuated_zero by (intros; reflexivity).
  simpl. lra.
Qed.

(** The cost at these tables is [2 - ln 2]. *)
Lemma one_bin_cost : GetValue one_bin_object zero_line_integrals = Some (2 - ln 2).
Proof.
  rewrite GetValue_positive.
  - unfold sum_over. simpl. rewrite one_bin_lambda. f_equal. ring.
  - intros b Hb. replace b with 0%nat by lia. rewrite one_bin_lambda. lra.
Qed.

(** The bound at these tables: the Fisher matrix is [16], its inverse
    [1 / 16], and the function returns the reciprocal, 16. *)
Lemma one_bin_bound :
  exists bound,
    GetCramerRaoLowerBound GetInverse1 one_bin_object zero_line_integrals = Returns bound
    /\ bound 0%nat = Some 16.
Proof.
  destruct (GetCramerRaoLowerBound_returns GetInverse1 one_bin_object zero_line_integrals
              (fun _ _ => 1 / FischerMatrix one_bin_object zero_line_integrals 0%nat 0%nat))
    as (bound & Hret & Hbound).
  - unfold GetInverse1. rewrite one_bin_Fischer.
    destruct (Req_dec_T 16 0); [lra | reflexivity].
  - exists bound. split; [exact Hret|].
    rewrite Hbound by lia. rewrite one_bin_Fischer. unfold fp_div.
    destruct (Req_dec_T (1 / 16) 0); [lra|]. f_equal. field.
Qed.

Lemma dark_lambda : ForwardModel dark_object zero_line_integrals 0%nat = 0.
Proof.
  rewrite ForwardModel_sum. unfold sum_over. simpl.
  rewrite spec_attenuated_zero by (intros; reflexivity).
  simpl. lra.
Qed.

Lemma signed_spectrum_lambda :
  ForwardModel signed_spectrum_object zero_line_integrals 0%nat = -1.
Proof.
  rewrite ForwardModel_sum. unfold sum_over. simpl.
  rewrite !spec_attenuated_zero by (intros; reflexivity).
  simpl. lra.
Qed.

Lemma GetInverse1_nonzero (M : Matrix) :
  M 0%nat 0%nat <> 0 -> GetInverse1 M = Returns (fun _ _ => 1 / M 0%nat 0%nat).
Proof.
  intros H. unfold GetInverse1.
  destruct (Req_dec_T (M 0%nat 0%nat) 0); [contradiction | reflexivity].
Qed.

(** A singular 2 by 2 matrix has determinant zero, on which [GetInverse2]
    throws. *)
Lemma GetInverse2_singular (M : Matrix) :
  singular 2 M -> GetInverse2 M = ExceptionObject.
Proof.
  intros (v & (i & Hi & Hvi) & Hrows).
  assert (H0 := Hrows 0%nat ltac:(lia)).
  assert (H1 := Hrows 1%nat ltac:(lia)).
  unfold sum_over in H0, H1. simpl in H0, H1.
  set (u := 1%nat) in *. set (z := 0%nat) in *.
  assert (Hd0 : determinant2 M * v z = 0).
  { unfold determinant2. fold z u.
    replace ((M z z * M u u - M z u * M u z) * v z)
      with (M u u * (M z z * v z + (M z u * v u + 0))
            - M z u * (M u z * v z + (M u u * v u + 0))) by ring.
    rewrite H0, H1. ring. }
  assert (Hd1 : determinant2 M * v u = 0).
  { unfold determinant2. fold z u.
    replace ((M z z * M u u - M z u * M u z) * v u)
      with (M z z * (M u z * v z + (M u u * v u + 0))
            - M u z * (M z z * v z + (M z u * v u + 0))) by ring.
    rewrite H0, H1. ring. }
  assert (Hdet : determinant2 M = 0).
  { destruct i as [|[|i]]; [| |lia].
    - destruct (Rmult_integral _ _ Hd0); [assumption | contradiction].
    - destruct (Rmult_integral _ _ Hd1); [assumption | contradiction]. }
  clearbody z u.
  unfold GetInverse2.
  destruct (Req_dec_T (determinant2 M) 0); [reflexivity | contradiction].
Qed.

(** ** The weights of the Fisher information *)

(** C1.  The weight lines 107-109 store for a bin is the product
    [lambda_b * lambda_b * counts_b], where the comment of line 106 and the
    specification have the quotient [counts_b / lambda_b^2]: with one bin, one
    photon counted and a predicted count of 2 the code stores 4 and the
    quotient is 1/4. *)
Theorem CramerRaoWeights_one_bin :
  ForwardModel one_bin_object zero_line_integrals 0%nat = 2
  /\ m_DetectorCounts one_bin_object 0%nat = 1
  /\ CramerRaoWeights one_bin_object zero_line_integrals 0%nat = 4
  /\ spec_weight one_bin_object (ForwardModel one_bin_object zero_line_integrals) 0%nat
     = 1 / 4.
Proof.
  split; [exact one_bin_lambda|]. split; [reflexivity|]. split.
  - rewrite CramerRaoWeights_entry, one_bin_lambda. simpl. lra.
  - unfold spec_weight. rewrite one_bin_lambda. simpl. lra.
Qed.

(** C6.  The Fisher entry that [GetCramerRaoLowerBound] accumulates is
    [sum_b w_b * (d lambda_b / d a) * (d lambda_b / d a')] with the weights of
    lines 107-109, [lambda_b * lambda_b * counts_b], where the specification
    has [w_b = counts_b / lambda_b^2]: with one material, one bin, one photon
    counted, a predicted count of 2 and a partial derivative of 2 the code
    stores 16 and the formula of the specification gives 1. *)
Theorem FischerMatrix_one_bin :
  spec_partial_derivative one_bin_object
    (spec_attenuated one_bin_object zero_line_integrals) 0%nat 0%nat = 2
  /\ FischerMatrix one_bin_object zero_line_integrals 0%nat 0%nat = 16
  /\ spec_Fisher one_bin_object
       (spec_weight one_bin_object (ForwardModel one_bin_object zero_line_integrals))
       (spec_attenuated one_bin_object zero_line_integrals) 0%nat 0%nat
     = 1.
Proof.
  assert (Hd : spec_partial_derivative one_bin_object
                 (spec_attenuated one_bin_object zero_line_integrals) 0%nat 0%nat = 2).
  { unfold spec_partial_derivative, sum_over. simpl.
    rewrite spec_attenuated_zero by (intros; reflexivity).
    simpl. lra. }
  split; [exact Hd|]. split; [exact one_bin_Fischer|].
  unfold spec_Fisher, sum_over. simpl.
  rewrite Hd. unfold spec_weight. rewrite one_bin_lambda. simpl. lra.
Qed.

(** ** The thresholds of the filter *)

Lemma non_decreasing_Sorted (t : list Z) :
  DecompositionFilter.non_decreasing t = true <-> Sorted Z.le t.
Proof.
  induction t as [|a rest IH].
  - split; [constructor | reflexivity].
  - destruct rest as [|b rest'].
    + split; [repeat constructor | reflexivity].
    + change (DecompositionFilter.non_decreasing (a :: b :: rest'))
        with ((a <=? b)%Z && DecompositionFilter.non_decreasing (b :: rest')).
      rewrite andb_true_iff, IH, Z.leb_le. split.
      * intros [Hab Hs]. constructor; [exact Hs | constructor; exact Hab].
      * intros Hs. inversion Hs as [|x l Hs' Hhd]; subst.
        inversion Hhd; subst. split; assumption.
Qed.

Lemma last_nonempty (first : Z) (rest : list Z) (d d' : Z) :
  last (first :: rest) d = last (first :: rest) d'.
Proof.
  revert first. induction rest as [|x rest IH]; intros first.
  - reflexivity.
  - change (last (x :: rest) d = last (x :: rest) d'). apply IH.
Qed.

(** The validation accepts exactly the sequences that are not empty, are
    non-decreasing, start at 0 or above and end at the number of energies. *)
Lemma ThresholdsAreValid_iff (NumberOfEnergies : nat) (t : list Z) :
  DecompositionFilter.ThresholdsAreValid NumberOfEnergies t = true
  <-> t <> [] /\ Sorted Z.le t /\ (0 <= hd 0 t)%Z
      /\ last t 0%Z = Z.of_nat NumberOfEnergies.
Proof.
  destruct t as [|first rest].
  - split; [discriminate | intros [H _]; contradiction].
  - unfold DecompositionFilter.ThresholdsAreValid.
    rewrite !andb_true_iff, non_decreasing_Sorted, Z.leb_le, Z.eqb_eq.
    rewrite (last_nonempty first rest first 0%Z). simpl hd.
    split.
    + intros [[Hs Hf] Hl]. repeat split; try assumption. discriminate.
    + intros (_ & Hs & Hf & Hl). repeat split; assumption.
Qed.

Example thresholds_of_six_bins :
  DecompositionFilter.ThresholdsAreValid 150 [0; 30; 60; 90; 120; 140; 150]%Z = true.
Proof. reflexivity. Qed.

Example thresholds_out_of_order :
  DecompositionFilter.ThresholdsAreValid 150 [0; 60; 30; 150]%Z = false.
Proof. reflexivity. Qed.

Example thresholds_short_of_the_energies :
  DecompositionFilter.ThresholdsAreValid 150 [0; 30; 60; 149]%Z = false.
Proof. reflexivity. Qed.

(** Thresholds that pass the validation let every pixel of the region be
    processed. *)
Lemma valid_thresholds_accepted {Pixel Output : Type} (NumberOfEnergies : nat)
  (decompose : Pixel -> Output)
  (filter : DecompositionFilter.SimplexSpectralProjectionsDecompositionImageFilter)
  (t : DecompositionFilter.ThresholdsType) (region : list Pixel) :
  DecompositionFilter.ThresholdsAreValid NumberOfEnergies t = true ->
  DecompositionFilter.processed
    (DecompositionFilter.GenerateData NumberOfEnergies decompose
       (DecompositionFilter.SetThresholds filter t) region) = region.
Proof.
  intros H.
  unfold DecompositionFilter.GenerateData, DecompositionFilter.BeforeThreadedGenerateData.
  simpl. rewrite H. reflexivity.
Qed.

(** C8.  Every Thresholds sequence that is not non-decreasing, or whose first
    entry is below 0, or whose last entry is not the number of energies, makes
    the setup step raise [ConfigurationError]; the run of the filter then ends
    with this error and has processed no pixel. *)
Theorem invalid_thresholds_rejected {Pixel Output : Type} (NumberOfEnergies : nat)
  (decompose : Pixel -> Output)
  (filter : DecompositionFilter.SimplexSpectralProjectionsDecompositionImageFilter)
  (t : DecompositionFilter.ThresholdsType) (region : list Pixel)
  (Hviolation : ~ Sorted Z.le t \/ (hd 0 t < 0)%Z
                \/ last t 0%Z <> Z.of_nat NumberOfEnergies) :
  DecompositionFilter.BeforeThreadedGenerateData NumberOfEnergies
    (DecompositionFilter.SetThresholds filter t)
  = Some DecompositionFilter.ConfigurationError
  /\ DecompositionFilter.outcome
       (DecompositionFilter.GenerateData NumberOfEnergies decompose
          (DecompositionFilter.SetThresholds filter t) region)
     = inl DecompositionFilter.ConfigurationError
  /\ DecompositionFilter.processed
       (DecompositionFilter.GenerateData NumberOfEnergies decompose
          (DecompositionFilter.SetThresholds filter t) region)
     = [].
Proof.
  assert (Hinvalid : DecompositionFilter.ThresholdsAreValid NumberOfEnergies t = false).
  { destruct (DecompositionFilter.ThresholdsAreValid NumberOfEnergies t) eqn:Hvalid;
      [|reflexivity].
    apply ThresholdsAreValid_iff in Hvalid.
    destruct Hvalid as (_ & Hs & Hf & Hl).
    destruct Hviolation as [H|[H|H]]; [contradiction | lia | contradiction]. }
  unfold DecompositionFilter.GenerateData, DecompositionFilter.BeforeThreadedGenerateData.
  simpl. rewrite Hinvalid. repeat split.
Qed.

(** ** The theorems at concrete tables *)

(** [ForwardModel_formula] at one material, one bin and one energy. *)
Lemma ForwardModel_formula_witness :
  (0 < 1)%nat
  /\ GetAttenuatedIncidentSpectrum one_bin_object zero_line_integrals 0%nat
     = 2 * exp (- sum_over 1 (fun m => zero_line_integrals m * 1))
  /\ ForwardModel one_bin_object zero_line_integrals 0%nat
     = sum_over 1
         (fun e => 1 * GetAttenuatedIncidentSpectrum one_bin_object zero_line_integrals e)
  /\ ForwardModel one_bin_object zero_line_integrals 0%nat
     = spec_counts one_bin_object zero_line_integrals 0%nat.
Proof.
  split; [lia|].
  apply (ForwardModel_formula one_bin_object zero_line_integrals 0%nat 0%nat). lia.
Defined.

(** [ForwardModel_zero] at the same tables. *)
Lemma ForwardModel_zero_witness :
  (forall m, (m < 1)%nat -> zero_line_integrals m = 0)
  /\ ForwardModel one_bin_object zero_line_integrals 0%nat
     = spec_unattenuated one_bin_object 0%nat
  /\ ForwardModel one_bin_object zero_line_integrals 0%nat
     = mat_vec 1 (m_DetectorResponse one_bin_object) (m_IncidentSpectrum one_bin_object)
         0%nat.
Proof.
  split; [intros m _; reflexivity|].
  apply (ForwardModel_zero one_bin_object zero_line_integrals 0%nat).
  intros m _. reflexivity.
Defined.

(** [GetValue_formula] at the same tables: the predicted count is 2. *)
Lemma GetValue_formula_witness :
  (forall b, (b < 1)%nat -> 0 < ForwardModel one_bin_object zero_line_integrals b)
  /\ GetValue one_bin_object zero_line_integrals
     = Some (sum_over 1
               (fun b =>
                  ForwardModel one_bin_object zero_line_integrals b
                  - m_DetectorCounts one_bin_object b
                    * ln (ForwardModel one_bin_object zero_line_integrals b))).
Proof.
  assert (H : forall b, (b < 1)%nat ->
                0 < ForwardModel one_bin_object zero_line_integrals b).
  { intros b Hb. replace b with 0%nat by lia. rewrite one_bin_lambda. lra. }
  split; [exact H|].
  apply (proj2 (GetValue_formula one_bin_object zero_line_integrals)). exact H.
Defined.

(** [GetValue_not_finite] with no incident photon: the one predicted count
    is 0. *)
Lemma GetValue_not_finite_witness :
  (0 < 1)%nat
  /\ ForwardModel dark_object zero_line_integrals 0%nat <= 0
  /\ GetValue dark_object zero_line_integrals = None.
Proof.
  assert (H : ForwardModel dark_object zero_line_integrals 0%nat <= 0)
    by (rewrite dark_lambda; lra).
  split; [lia|]. split; [exact H|].
  apply (proj2 (GetValue_not_finite dark_object zero_line_integrals 0%nat
                  ltac:(lia) H)).
Defined.

(** [GetCramerRaoLowerBound_formula] at the same tables: the Fisher matrix has
    the one entry 16. *)
Lemma GetCramerRaoLowerBound_formula_witness :
  (0 < 1)%nat
  /\ GetInverse1 (FischerMatrix one_bin_object zero_line_integrals)
     = Returns (fun _ _ => 1 / FischerMatrix one_bin_object zero_line_integrals 0%nat 0%nat)
  /\ FischerMatrix one_bin_object zero_line_integrals 0%nat 0%nat
     = sum_over 1
         (fun b =>
            CramerRaoWeights one_bin_object zero_line_integrals b
            * spec_partial_derivative one_bin_object
                (spec_attenuated one_bin_object zero_line_integrals) 0%nat b
            * spec_partial_derivative one_bin_object
                (spec_attenuated one_bin_object zero_line_integrals) 0%nat b)
  /\ exists bound,
       GetCramerRaoLowerBound GetInverse1 one_bin_object zero_line_integrals = Returns bound
       /\ bound 0%nat
          = fp_div (Some 1)
              (Some (1 / FischerMatrix one_bin_object zero_line_integrals 0%nat 0%nat)).
Proof.
  assert (H : GetInverse1 (FischerMatrix one_bin_object zero_line_integrals)
              = Returns
                  (fun _ _ =>
                     1 / FischerMatrix one_bin_object zero_line_integrals 0%nat 0%nat)).
  { apply GetInverse1_nonzero. rewrite one_bin_Fischer. lra. }
  split; [lia|]. split; [exact H|].
  apply (GetCramerRaoLowerBound_formula GetInverse1 one_bin_object zero_line_integrals
           (fun _ _ => 1 / FischerMatrix one_bin_object zero_line_integrals 0%nat 0%nat)
           0%nat 0%nat 0%nat); try lia.
  exact H.
Defined.

(** [GetCramerRaoLowerBound_singular] at two materials with the same
    attenuation curve and the inversion of 2 by 2 matrices. *)
Lemma GetCramerRaoLowerBound_singular_witness :
  (forall M, singular 2 M -> GetInverse2 M = ExceptionObject)
  /\ (forall e, (e < 1)%nat ->
        m_MaterialAttenuations twin_materials_object 0%nat e
        = m_MaterialAttenuations twin_materials_object 1%nat e)
  /\ GetCramerRaoLowerBound GetInverse2 twin_materials_object zero_line_integrals
     = ExceptionObject.
Proof.
  split; [exact GetInverse2_singular|].
  split; [intros e _; reflexivity|].
  apply (proj2 (GetCramerRaoLowerBound_singular GetInverse2 twin_materials_object
                  zero_line_integrals GetInverse2_singular) 0%nat 1%nat); try lia.
  intros e _. reflexivity.
Defined.

(** [ForwardModel_positive] at one material, one bin and one energy. *)
Lemma ForwardModel_positive_witness :
  response_row_sees_spectrum one_bin_object 0%nat
  /\ spectrum_nonnegative_on_row one_bin_object 0%nat
  /\ 0 < ForwardModel one_bin_object zero_line_integrals 0%nat.
Proof.
  assert (Hrow : response_row_sees_spectrum one_bin_object 0%nat).
  { split.
    - intros e _. simpl. lra.
    - exists 0%nat. split; [lia|]. simpl. split; lra. }
  assert (Hinc : spectrum_nonnegative_on_row one_bin_object 0%nat).
  { intros e _ _. simpl. lra. }
  split; [exact Hrow|]. split; [exact Hinc|].
  apply (proj1 (proj2 (ForwardModel_positive one_bin_object zero_line_integrals)) 0%nat);
    assumption.
Defined.

(** [invalid_thresholds_rejected] at three energies and thresholds that end
    at 4. *)
Lemma invalid_thresholds_rejected_witness :
  last [0; 2; 4]%Z 0%Z <> Z.of_nat 3
  /\ DecompositionFilter.processed
       (DecompositionFilter.GenerateData 3 (fun pixel : nat => pixel)
          (DecompositionFilter.SetThresholds
             {| DecompositionFilter.m_MaterialAttenuations := fun _ _ => 1;
                DecompositionFilter.m_DetectorResponse := fun _ _ => 1;
                DecompositionFilter.m_Thresholds := [0; 1; 3]%Z;
                DecompositionFilter.m_NumberOfIterations := 300%Z |}
             [0; 2; 4]%Z)
          [7; 8; 9]%nat)
     = [].
Proof.
  split; [simpl; lia|].
  apply (invalid_thresholds_rejected 3 (fun pixel : nat => pixel)).
  right. right. simpl. lia.
Defined.

(** ** Where the claims as stated fail *)

(** C5 as stated: a guard keeps [GetValue] from taking the logarithm of a
    predicted count that is zero or negative.  With no incident photon the one
    predicted count is 0, [GetValue] takes [std::log] of it, and the cost it
    returns is not finite. *)
Lemma GetValue_guard_counterexample :
  ForwardModel dark_object zero_line_integrals 0%nat <= 0
  /\ std_log (ForwardModel dark_object zero_line_integrals 0%nat) = None
  /\ GetValue dark_object zero_line_integrals = None.
Proof.
  split; [rewrite dark_lambda; lra|].
  split.
  - apply std_log_None. rewrite dark_lambda. lra.
  - rewrite GetValue_sum. apply fp_sum_over_None.
    exists 0%nat. split; [lia|].
    apply measure_term_None. rewrite dark_lambda. lra.
Qed.

(** C10 as stated: the predicted count of a bin is positive whenever its row
    of the detector response is nonnegative and positive at an energy where
    the incident spectrum is positive.  With the response row [1, 1] and the
    incident spectrum [1, -2] the row qualifies and the predicted count is
    -1. *)
Lemma ForwardModel_positive_counterexample :
  response_row_sees_spectrum signed_spectrum_object 0%nat
  /\ ForwardModel signed_spectrum_object zero_line_integrals 0%nat = -1
  /\ ~ 0 < ForwardModel signed_spectrum_object zero_line_integrals 0%nat.
Proof.
  split.
  - split.
    + intros e _. simpl. lra.
    + exists 0%nat. split; [lia|]. simpl. split; lra.
  - rewrite signed_spectrum_lambda. split; [reflexivity | lra].
Qed.

(** * Further properties of the cost function *)

Lemma sum_over_scal (n : nat) (c : R) (f : nat -> R) :
  sum_over n (fun i => c * f i) = c * sum_over n f.
Proof.
  induction n as [|n IH].
  - rewrite !sum_over_0. ring.
  - rewrite !sum_over_S, IH. ring.
Qed.

Lemma sum_over_opp (n : nat) (f : nat -> R) :
  sum_over n (fun i => - f i) = - sum_over n f.
Proof.
  induction n as [|n IH].
  - rewrite !sum_over_0. ring.
  - rewrite !sum_over_S, IH. ring.
Qed.

Lemma sum_over_swap (n m : nat) (f : nat -> nat -> R) :
  sum_over n (fun i => sum_over m (fun j => f i j))
  = sum_over m (fun j => sum_over n (fun i => f i j)).
Proof.
  induction n as [|n IH].
  - rewrite sum_over_0. symmetry. apply sum_over_zero. intros. apply sum_over_0.
  - rewrite sum_over_S, IH, <- sum_over_plus.
    apply sum_over_ext. intros j _. rewrite sum_over_S. reflexivity.
Qed.

Lemma sum_over_le (n : nat) (f g : nat -> R) :
  (forall i, (i < n)%nat -> f i <= g i) -> sum_over n f <= sum_over n g.
Proof.
  induction n as [|n IH]; intros H.
  - rewrite !sum_over_0. lra.
  - rewrite !sum_over_S.
    assert (sum_over n f <= sum_over n g) by (apply IH; intros; apply H; lia).
    assert (f n <= g n) by (apply H; lia).
    lra.
Qed.

(** A weighted sum of outer products is a weighted sum of squares on every
    vector. *)
Lemma quadratic_form_squares (n k : nat) (w : Vector) (d : nat -> nat -> R) (M : Matrix)
  (v : Vector) :
  (forall a a', (a < n)%nat -> (a' < n)%nat ->
     M a a' = sum_over k (fun b => w b * d a b * d a' b)) ->
  quadratic_form n M v
  = sum_over k (fun b => w b * (sum_over n (fun a => v a * d a b)
                                * sum_over n (fun a => v a * d a b))).
Proof.
  intros HM. unfold quadratic_form.
  rewrite (sum_over_ext n _
             (fun a =>
                sum_over k
                  (fun b => w b * (v a * d a b) * sum_over n (fun a' => v a' * d a' b)))).
  - rewrite sum_over_swap. apply sum_over_ext. intros b _.
    rewrite (sum_over_ext n _
               (fun a => (w b * sum_over n (fun a' => v a' * d a' b)) * (v a * d a b)))
      by (intros; ring).
    rewrite sum_over_scal. ring.
  - intros a Ha.
    rewrite (sum_over_ext n _
               (fun a' => sum_over k (fun b => w b * d a b * (v a' * d a' b))))
      by (intros a' Ha'; rewrite (HM a a' Ha Ha'), Rmult_comm, <- sum_over_scal;
          apply sum_over_ext; intros; ring).
    rewrite sum_over_swap, <- sum_over_scal.
    apply sum_over_ext. intros b _.
    rewrite sum_over_scal. ring.
Qed.

Section CostFunctionFurtherProperties.

Context {NbMaterials NumberOfSpectralBins NumberOfEnergies : nat}.

#[local] Abbreviation Self :=
  (Schlomka2008NegativeLogLikelihood NbMaterials NumberOfSpectralBins NumberOfEnergies).

(** X1.  The Fisher information matrix the two loops of
    [GetCramerRaoLowerBound] fill is symmetric, although every entry is
    computed on its own. *)
Theorem FischerMatrix_symmetric (self : Self) (lineIntegrals : ParametersType)
  (a a' : nat) (Ha : (a < NbMaterials)%nat) (Ha' : (a' < NbMaterials)%nat) :
  FischerMatrix self lineIntegrals a a' = FischerMatrix self lineIntegrals a' a.
Proof.
  rewrite !FischerMatrix_entry by assumption.
  unfold spec_Fisher. apply sum_over_ext. intros b _. ring.
Qed.

Lemma CramerRaoWeights_nonneg (self : Self) (lineIntegrals : ParametersType) (b : nat) :
  0 <= m_DetectorCounts self b -> 0 <= CramerRaoWeights self lineIntegrals b.
Proof.
  intros H. rewrite CramerRaoWeights_entry.
  apply Rmult_le_pos; [|exact H].
  apply Rle_0_sqr.
Qed.

(** X2.  With detector counts that are not negative the Fisher information
    matrix is positive semi-definite: its quadratic form is the sum over the
    bins of the weight times the square of [sum_a v_a * partial_derivative_a],
    which is not negative. *)
Theorem FischerMatrix_positive_semidefinite (self : Self)
  (lineIntegrals : ParametersType) (v : Vector)
  (Hcounts : forall b, (b < NumberOfSpectralBins)%nat -> 0 <= m_DetectorCounts self b) :
  quadratic_form NbMaterials (FischerMatrix self lineIntegrals) v
  = sum_over NumberOfSpectralBins
      (fun b =>
         CramerRaoWeights self lineIntegrals b
         * (sum_over NbMaterials (fun a => v a * partial_derivative_a self lineIntegrals a b)
            * sum_over NbMaterials
                (fun a => v a * partial_derivative_a self lineIntegrals a b)))
  /\ 0 <= quadratic_form NbMaterials (FischerMatrix self lineIntegrals) v.
Proof.
  assert (Hq : quadratic_form NbMaterials (FischerMatrix self lineIntegrals) v
               = sum_over NumberOfSpectralBins
                   (fun b =>
                      CramerRaoWeights self lineIntegrals b
                      * (sum_over NbMaterials
                           (fun a => v a * partial_derivative_a self lineIntegrals a b)
                         * sum_over NbMaterials
                             (fun a => v a * partial_derivative_a self lineIntegrals a b)))).
  { apply quadratic_form_squares. intros a a' Ha Ha'.
    rewrite FischerMatrix_entry by assumption. unfold spec_Fisher.
    apply sum_over_ext. intros b _.
    unfold partial_derivative_a. cbv zeta.
    rewrite !partial_derivative_sum. reflexivity. }
  split; [exact Hq|].
  rewrite Hq. apply sum_over_nonneg. intros b Hb.
  apply Rmult_le_pos.
  - apply CramerRaoWeights_nonneg. apply Hcounts. exact Hb.
  - apply Rle_0_sqr.
Qed.

(** X3.  For a pixel that counted no photon in any bin every entry of the
    Fisher information matrix is zero; with at least one material the matrix
    is singular, and [GetCramerRaoLowerBound] returns no bound when the
    inversion throws on singular matrices. *)
Theorem FischerMatrix_no_count (GetInverse : Matrix -> result Matrix) (self : Self)
  (lineIntegrals : ParametersType)
  (Hcounts : forall b, (b < NumberOfSpectralBins)%nat -> m_DetectorCounts self b = 0)
  (Hmaterial : (0 < NbMaterials)%nat) :
  (forall a a', (a < NbMaterials)%nat -> (a' < NbMaterials)%nat ->
     FischerMatrix self lineIntegrals a a' = 0)
  /\ singular NbMaterials (FischerMatrix self lineIntegrals)
  /\ ((forall M, singular NbMaterials M -> GetInverse M = ExceptionObject) ->
      GetCramerRaoLowerBound GetInverse self lineIntegrals = ExceptionObject).
Proof.
  assert (Hzero : forall a a', (a < NbMaterials)%nat -> (a' < NbMaterials)%nat ->
                    FischerMatrix self lineIntegrals a a' = 0).
  { intros a a' Ha Ha'. rewrite FischerMatrix_entry by assumption.
    unfold spec_Fisher. apply sum_over_zero. intros b Hb.
    rewrite CramerRaoWeights_entry, (Hcounts b Hb). ring. }
  assert (Hsing : singular NbMaterials (FischerMatrix self lineIntegrals)).
  { exists (fun _ => 1). split.
    - exists 0%nat. split; [exact Hmaterial | lra].
    - intros r Hr. apply sum_over_zero. intros c Hc.
      rewrite (Hzero r c Hr Hc). ring. }
  split; [exact Hzero|]. split; [exact Hsing|].
  intros Hthrows. apply GetCramerRaoLowerBound_throws. apply Hthrows. exact Hsing.
Qed.

Lemma ln_le_minus_1 (x : R) : 0 < x -> ln x <= x - 1.
Proof.
  intros Hx. pose proof (exp_ineq1_le (ln x)) as H.
  rewrite exp_ln in H by exact Hx. lra.
Qed.

(** The term of one bin is least where the predicted count is the measured
    one. *)
Lemma measure_term_min (count lambda : R) :
  0 < count -> 0 < lambda ->
  count - count * ln count <= lambda - count * ln lambda.
Proof.
  intros Hc Hl.
  assert (Hx : 0 < lambda / count) by (apply Rdiv_lt_0_compat; assumption).
  pose proof (ln_le_minus_1 (lambda / count) Hx) as Hln.
  assert (Hsplit : ln lambda = ln count + ln (lambda / count)).
  { rewrite <- ln_mult by assumption. f_equal. field. lra. }
  rewrite Hsplit.
  assert (count * ln (lambda / count) <= count * (lambda / count - 1))
    by (apply Rmult_le_compat_l; lra).
  replace (count * (lambda / count - 1)) with (lambda - count) in H by (field; lra).
  lra.
Qed.

Lemma measure_term_min_strict (count lambda : R) :
  0 < count -> 0 < lambda -> lambda <> count ->
  count - count * ln count < lambda - count * ln lambda.
Proof.
  intros Hc Hl Hne.
  assert (Hx : 0 < lambda / count) by (apply Rdiv_lt_0_compat; assumption).
  assert (Hln : ln (lambda / count) < lambda / count - 1).
  { assert (Hnz : ln (lambda / count) <> 0).
    { intros H0. apply Hne.
      assert (H1 : lambda / count = 1).
      { rewrite <- (exp_ln (lambda / count)) by exact Hx. rewrite H0. apply exp_0. }
      apply (Rmult_eq_compat_r count) in H1. field_simplify in H1; lra. }
    pose proof (exp_ineq1 (ln (lambda / count)) Hnz) as H.
    rewrite exp_ln in H by exact Hx. lra. }
  assert (Hsplit : ln lambda = ln count + ln (lambda / count)).
  { rewrite <- ln_mult by assumption. f_equal. field. lra. }
  rewrite Hsplit.
  assert (count * ln (lambda / count) < count * (lambda / count - 1))
    by (apply Rmult_lt_compat_l; lra).
  replace (count * (lambda / count - 1)) with (lambda - count) in H by (field; lra).
  lra.
Qed.

(** Two sums with the same value whose terms are ordered have the same
    terms. *)
Lemma sum_over_le_eq (n : nat) (f g : nat -> R) :
  (forall i, (i < n)%nat -> f i <= g i) -> sum_over n f = sum_over n g ->
  forall i, (i < n)%nat -> f i = g i.
Proof.
  induction n as [|n IH]; intros Hle Heq i Hi.
  - lia.
  - rewrite !sum_over_S in Heq.
    assert (Hn : f n <= g n) by (apply Hle; lia).
    assert (Hs : sum_over n f <= sum_over n g)
      by (apply sum_over_le; intros; apply Hle; lia).
    destruct (Nat.eq_dec i n) as [->|Hne].
    + lra.
    + apply IH; [intros; apply Hle; lia | lra | lia].
Qed.

(** X4.  Where every measured count is positive, parameters at which
    [ForwardModel] predicts exactly the measured counts minimise [GetValue]
    over all parameters with positive predicted counts, and only parameters
    that predict the measured counts in every bin reach the same cost. *)
Theorem GetValue_minimal_at_match (self : Self) (matching parameters : ParametersType)
  (Hcounts : forall b, (b < NumberOfSpectralBins)%nat -> 0 < m_DetectorCounts self b)
  (Hmatch : forall b, (b < NumberOfSpectralBins)%nat ->
              ForwardModel self matching b = m_DetectorCounts self b)
  (Hpositive : forall b, (b < NumberOfSpectralBins)%nat ->
                 0 < ForwardModel self parameters b) :
  exists least measure,
    GetValue self matching = Some least
    /\ GetValue self parameters = Some measure
    /\ least <= measure
    /\ (least = measure ->
        forall b, (b < NumberOfSpectralBins)%nat ->
          ForwardModel self parameters b = m_DetectorCounts self b).
Proof.
  assert (Hterms : forall b, (b < NumberOfSpectralBins)%nat ->
            ForwardModel self matching b
            - m_DetectorCounts self b * ln (ForwardModel self matching b)
            <= ForwardModel self parameters b
               - m_DetectorCounts self b * ln (ForwardModel self parameters b)).
  { intros b Hb. rewrite (Hmatch b Hb).
    apply measure_term_min; [apply Hcounts | apply Hpositive]; exact Hb. }
  eexists. eexists. split; [|split; [|split]].
  - apply GetValue_positive. intros b Hb. rewrite (Hmatch b Hb). apply Hcounts. exact Hb.
  - apply GetValue_positive. exact Hpositive.
  - apply sum_over_le. exact Hterms.
  - intros Heq b Hb.
    pose proof (sum_over_le_eq _ _ _ Hterms Heq b Hb) as Hb_eq.
    cbv beta in Hb_eq. rewrite (Hmatch b Hb) in Hb_eq.
    destruct (Req_dec_T (ForwardModel self parameters b) (m_DetectorCounts self b))
      as [H|H]; [exact H|].
    pose proof (measure_term_min_strict _ _ (Hcounts b Hb) (Hpositive b Hb) H).
    lra.
Qed.

(** X5.  Attenuations compose: the counts predicted for the sum of two
    line-integral vectors are those predicted for the second vector when the
    incident spectrum is the spectrum attenuated by the first. *)
Theorem ForwardModel_compose (self : Self) (first second : ParametersType) (b : nat) :
  ForwardModel
    (SetIncidentSpectrum self (GetAttenuatedIncidentSpectrum self first)) second b
  = ForwardModel self (fun m => first m + second m) b.
Proof.
  rewrite !ForwardModel_sum. apply sum_over_ext. intros e He.
  unfold spec_attenuated. simpl.
  rewrite GetAttenuatedIncidentSpectrum_below by exact He.
  unfold spec_attenuated.
  rewrite (sum_over_ext NbMaterials
             (fun m => (first m + second m) * m_MaterialAttenuations self m e)
             (fun m => first m * m_MaterialAttenuations self m e
                       + second m * m_MaterialAttenuations self m e))
    by (intros; ring).
  rewrite sum_over_plus, Ropp_plus_distr, exp_plus. ring.
Qed.

(** X6.  The predicted counts are linear in the incident spectrum. *)
Theorem ForwardModel_linear_in_spectrum (self : Self) (lineIntegrals : ParametersType)
  (k1 k2 : R) (spectrum1 spectrum2 : Vector) (b : nat) :
  ForwardModel
    (SetIncidentSpectrum self (fun e => k1 * spectrum1 e + k2 * spectrum2 e))
    lineIntegrals b
  = k1 * ForwardModel (SetIncidentSpectrum self spectrum1) lineIntegrals b
    + k2 * ForwardModel (SetIncidentSpectrum self spectrum2) lineIntegrals b.
Proof.
  rewrite !ForwardModel_sum, <- !sum_over_scal, <- sum_over_plus.
  apply sum_over_ext. intros e _. unfold spec_attenuated. simpl. ring.
Qed.

Lemma exp_le (x y : R) : x <= y -> exp x <= exp y.
Proof.
  intros [H|H].
  - left. apply exp_increasing. exact H.
  - rewrite H. lra.
Qed.

Lemma spec_attenuated_antitone (self : Self) (thinner thicker : ParametersType) (e : nat) :
  (e < NumberOfEnergies)%nat ->
  (forall m, (m < NbMaterials)%nat -> 0 <= m_MaterialAttenuations self m e) ->
  0 <= m_IncidentSpectrum self e ->
  (forall m, (m < NbMaterials)%nat -> thinner m <= thicker m) ->
  spec_attenuated self thicker e <= spec_attenuated self thinner e.
Proof.
  intros He Hatt Hinc Hle. unfold spec_attenuated.
  apply Rmult_le_compat_l; [exact Hinc|].
  apply exp_le. apply Ropp_le_contravar.
  apply sum_over_le. intros m Hm.
  apply Rmult_le_compat_r; [apply Hatt | apply Hle]; exact Hm.
Qed.

(** X7.  With attenuations, incident spectrum and response row that are not
    negative, more material never raises a predicted count: if no line
    integral decreases, the count of bin [b] does not increase. *)
Theorem ForwardModel_antitone (self : Self) (thinner thicker : ParametersType) (b : nat)
  (Hattenuations : forall m e, (m < NbMaterials)%nat -> (e < NumberOfEnergies)%nat ->
                     0 <= m_MaterialAttenuations self m e)
  (Hspectrum : forall e, (e < NumberOfEnergies)%nat -> 0 <= m_IncidentSpectrum self e)
  (Hresponse : forall e, (e < NumberOfEnergies)%nat -> 0 <= m_DetectorResponse self b e)
  (Hle : forall m, (m < NbMaterials)%nat -> thinner m <= thicker m) :
  ForwardModel self thicker b <= ForwardModel self thinner b.
Proof.
  rewrite !ForwardModel_sum. apply sum_over_le. intros e He.
  apply Rmult_le_compat_l; [apply Hresponse; exact He|].
  apply spec_attenuated_antitone; try assumption.
  - intros m Hm. apply Hattenuations; assumption.
  - apply Hspectrum. exact He.
Qed.

(** X8.  With such tables and line integrals that are not negative, every
    predicted count lies between zero and the count without any material,
    [sum_e response[b][e] * incident[e]]. *)
Theorem ForwardModel_bounds (self : Self) (lineIntegrals : ParametersType) (b : nat)
  (Hattenuations : forall m e, (m < NbMaterials)%nat -> (e < NumberOfEnergies)%nat ->
                     0 <= m_MaterialAttenuations self m e)
  (Hspectrum : forall e, (e < NumberOfEnergies)%nat -> 0 <= m_IncidentSpectrum self e)
  (Hresponse : forall e, (e < NumberOfEnergies)%nat -> 0 <= m_DetectorResponse self b e)
  (Hthickness : forall m, (m < NbMaterials)%nat -> 0 <= lineIntegrals m) :
  0 <= ForwardModel self lineIntegrals b <= spec_unattenuated self b.
Proof.
  split.
  - rewrite ForwardModel_sum. apply sum_over_nonneg. intros e He.
    apply Rmult_le_pos; [apply Hresponse; exact He|].
    apply spec_attenuated_nonneg. apply Hspectrum. exact He.
  - rewrite ForwardModel_sum. unfold spec_unattenuated.
    apply sum_over_le. intros e He.
    apply Rmult_le_compat_l; [apply Hresponse; exact He|].
    rewrite <- (spec_attenuated_zero self zero_line_integrals e)
      by (intros; reflexivity).
    apply spec_attenuated_antitone; try assumption.
    + intros m Hm. apply Hattenuations; assumption.
    + apply Hspectrum. exact He.
Qed.

Lemma derivable_pt_lim_sum_over (n : nat) (F : nat -> R -> R) (l : nat -> R) (x : R) :
  (forall i, (i < n)%nat -> derivable_pt_lim (F i) x (l i)) ->
  derivable_pt_lim (fun t => sum_over n (fun i => F i t)) x (sum_over n l).
Proof.
  induction n as [|n IH]; intros H.
  - rewrite sum_over_0.
    apply (derivable_pt_lim_ext (fct_cte 0)); [intros z; reflexivity|].
    apply derivable_pt_lim_const.
  - rewrite sum_over_S.
    apply (derivable_pt_lim_ext ((fun t => sum_over n (fun i => F i t)) + F n)%F).
    + intros z. unfold plus_fct. rewrite sum_over_S. reflexivity.
    + apply derivable_pt_lim_plus; [apply IH; intros; apply H; lia | apply H; lia].
Qed.

(** The slope of [t |-> c * exp(- (u + t * k))]. *)
Lemma derivable_pt_lim_attenuation (c u k x : R) :
  derivable_pt_lim (fun t => c * exp (- (u + t * k))) x
    (- (c * exp (- (u + x * k)) * k)).
Proof.
  assert (Hinner : derivable_pt_lim (fun t => - (u + t * k)) x (- k)).
  { apply (derivable_pt_lim_ext (fct_cte (- u) + mult_real_fct (- k) id)%F).
    - intros z. unfold plus_fct, fct_cte, mult_real_fct, id. ring.
    - pose proof (derivable_pt_lim_plus _ _ x _ _
                    (derivable_pt_lim_const (- u) x)
                    (derivable_pt_lim_scal id (- k) x 1 (derivable_pt_lim_id x))) as H.
      replace (0 + - k * 1) with (- k) in H by ring. exact H. }
  apply (derivable_pt_lim_ext (mult_real_fct c (comp exp (fun t => - (u + t * k))))).
  - intros z. reflexivity.
  - replace (- (c * exp (- (u + x * k)) * k))
      with (c * (exp (- (u + x * k)) * - k)) by ring.
    apply derivable_pt_lim_scal.
    apply (derivable_pt_lim_comp (fun t => - (u + t * k)) exp).
    + exact Hinner.
    + apply derivable_pt_lim_exp.
Qed.

(** The total attenuation with [t] added to the line integral of material
    [a]. *)
Lemma total_attenuation_shift (self : Self) (lineIntegrals : ParametersType)
  (a : nat) (t : R) (e : nat) :
  (a < NbMaterials)%nat ->
  sum_over NbMaterials
    (fun m => shift_line_integral lineIntegrals a t m * m_MaterialAttenuations self m e)
  = sum_over NbMaterials (fun m => lineIntegrals m * m_MaterialAttenuations self m e)
    + t * m_MaterialAttenuations self a e.
Proof.
  intros Ha.
  rewrite (sum_over_ext NbMaterials _
             (fun m =>
                lineIntegrals m * m_MaterialAttenuations self m e
                + (if (m =? a)%nat then t * m_MaterialAttenuations self m e else 0))).
  - rewrite sum_over_plus.
    rewrite (sum_over_pick NbMaterials a (fun m => t * m_MaterialAttenuations self m e))
      by exact Ha.
    reflexivity.
  - intros m _. unfold shift_line_integral.
    destruct (m =? a)%nat; ring.
Qed.

(** X9.  The vector lines 124 and 127 of [GetCramerRaoLowerBound] call the
    partial derivative of the predicted counts with respect to the line
    integral of material [a] is the negated derivative: the slope of the
    predicted count of bin [b] along material [a] is
    [- partial_derivative_a[b]].  The Fisher entries multiply two of these
    vectors, so they equal the sum over bins of the weight times the product
    of the two slopes. *)
Theorem ForwardModel_slope (self : Self) (lineIntegrals : ParametersType) (a a' b : nat)
  (Ha : (a < NbMaterials)%nat) (Ha' : (a' < NbMaterials)%nat) :
  derivable_pt_lim
    (fun t => ForwardModel self (shift_line_integral lineIntegrals a t) b) 0
    (- partial_derivative_a self lineIntegrals a b)
  /\ FischerMatrix self lineIntegrals a a'
     = sum_over NumberOfSpectralBins
         (fun b' =>
            CramerRaoWeights self lineIntegrals b'
            * (- partial_derivative_a self lineIntegrals a b')
            * (- partial_derivative_a self lineIntegrals a' b')).
Proof.
  split.
  - apply (derivable_pt_lim_ext
             (fun t =>
                sum_over NumberOfEnergies
                  (fun e =>
                     (m_DetectorResponse self b e * m_IncidentSpectrum self e)
                     * exp (- (sum_over NbMaterials
                                 (fun m => lineIntegrals m * m_MaterialAttenuations self m e)
                               + t * m_MaterialAttenuations self a e))))).
    + intros z. rewrite ForwardModel_sum. apply sum_over_ext. intros e _.
      unfold spec_attenuated. rewrite total_attenuation_shift by exact Ha. ring.
    + replace (- partial_derivative_a self lineIntegrals a b)
        with (sum_over NumberOfEnergies
                (fun e =>
                   - ((m_DetectorResponse self b e * m_IncidentSpectrum self e)
                      * exp (- (sum_over NbMaterials
                                  (fun m =>
                                     lineIntegrals m * m_MaterialAttenuations self m e)
                                + 0 * m_MaterialAttenuations self a e))
                      * m_MaterialAttenuations self a e))).
      * apply (derivable_pt_lim_sum_over NumberOfEnergies
                 (fun e t =>
                    (m_DetectorResponse self b e * m_IncidentSpectrum self e)
                    * exp (- (sum_over NbMaterials
                                (fun m =>
                                   lineIntegrals m * m_MaterialAttenuations self m e)
                              + t * m_MaterialAttenuations self a e)))).
        intros e _. apply derivable_pt_lim_attenuation.
      * unfold partial_derivative_a. cbv zeta. rewrite partial_derivative_sum.
        unfold spec_partial_derivative, spec_attenuated.
        rewrite <- sum_over_opp.
        apply sum_over_ext. intros e _.
        rewrite Rmult_0_l, Rplus_0_r. ring.
  - rewrite FischerMatrix_entry by assumption. unfold spec_Fisher.
    apply sum_over_ext. intros b' _.
    unfold partial_derivative_a. cbv zeta. rewrite !partial_derivative_sum. ring.
Qed.

(** X14.  With no incident photon at any energy every predicted count is
    zero whatever the line integrals are; with at least one bin the cost is
    then not finite, and every entry of the Fisher information matrix is
    zero. *)
Theorem ForwardModel_dark (self : Self) (lineIntegrals : ParametersType)
  (Hdark : forall e, (e < NumberOfEnergies)%nat -> m_IncidentSpectrum self e = 0) :
  (forall b, ForwardModel self lineIntegrals b = 0)
  /\ ((0 < NumberOfSpectralBins)%nat -> GetValue self lineIntegrals = None)
  /\ (forall a a', (a < NbMaterials)%nat -> (a' < NbMaterials)%nat ->
        FischerMatrix self lineIntegrals a a' = 0).
Proof.
  assert (Hzero : forall b, ForwardModel self lineIntegrals b = 0).
  { intros b. rewrite ForwardModel_sum. apply sum_over_zero. intros e He.
    unfold spec_attenuated. rewrite (Hdark e He). ring. }
  split; [exact Hzero|]. split.
  - intros Hbin. rewrite GetValue_sum. apply fp_sum_over_None.
    exists 0%nat. split; [exact Hbin|].
    apply measure_term_None. rewrite Hzero. lra.
  - intros a a' Ha Ha'. rewrite FischerMatrix_entry by assumption.
    unfold spec_Fisher. apply sum_over_zero. intros b _.
    rewrite CramerRaoWeights_entry, Hzero. ring.
Qed.

End CostFunctionFurtherProperties.

(** * Properties of the projection of a geometric phantom *)

Module ProjectGeometricPhantomProperties.

Import Stdlib.Strings.String.
Import ProjectGeometricPhantom.

Lemma back_snoc {A : Type} (v : list A) (x : A) : back (v ++ [x]) = Some x.
Proof.
  induction v as [|y v IH].
  - reflexivity.
  - change (back (y :: (v ++ [x])) = Some x).
    destruct (v ++ [x]) as [|z w] eqn:Hv.
    + destruct v; discriminate.
    + exact IH.
Qed.

Lemma empty_true (s : string) : empty s = true <-> s = EmptyString.
Proof. destruct s; split; intros H; try reflexivity; discriminate. Qed.

Section Filter.

Context `{Toolkit}.

(** After the first projector every convex shape adds one filter on the
    output of the last one. *)
Lemma AddProjector_chain (self : ProjectGeometricPhantomImageFilter)
  (shapes : list ConvexShape) (projectors : list (Region -> string + OutputImage))
  (previous : Region -> string + OutputImage) :
  back projectors = Some previous ->
  back (fold_left (AddProjector self) shapes projectors)
  = Some (fold_left
            (fun previous convexShape =>
               RayConvexIntersectionOfOutput (GetGeometry self)
                 (Rescale (m_PhantomScale self)
                    (Translate (m_OriginOffset self)
                       (Rotate (m_RotationMatrix self) convexShape)))
                 previous)
            shapes previous)
  /\ List.length (fold_left (AddProjector self) shapes projectors)
     = (List.length projectors + List.length shapes)%nat.
Proof.
  revert projectors previous.
  induction shapes as [|convexShape shapes IH]; intros projectors previous Hback.
  - simpl. split; [exact Hback | lia].
  - simpl fold_left.
    assert (Hstep : AddProjector self projectors convexShape
                    = projectors
                      ++ [RayConvexIntersectionOfOutput (GetGeometry self)
                            (Rescale (m_PhantomScale self)
                               (Translate (m_OriginOffset self)
                                  (Rotate (m_RotationMatrix self) convexShape)))
                            previous]).
    { unfold AddProjector. cbv zeta. rewrite Hback. reflexivity. }
    rewrite Hstep.
    match goal with
    | |- context [projectors ++ [?next]] =>
        destruct (IH (projectors ++ [next]) next (back_snoc projectors next)) as [Hb Hl]
    end.
    split; [exact Hb|].
    rewrite Hl, length_app. simpl. lia.
Qed.

(** The object after the call is the one the reading of the configuration
    file left. *)
Lemma GenerateData_state (self : ProjectGeometricPhantomImageFilter) :
  fst (GenerateData self)
  = match ReadConfigFile self with
    | inl _ => self
    | inr read => read
    end.
Proof.
  unfold GenerateData.
  destruct (ReadConfigFile self) as [what|read]; [reflexivity|].
  destruct (m_GeometricPhantom read) as [[|first rest]|]; try reflexivity.
  destruct (back _) as [last|]; [|reflexivity].
  destruct (last _); reflexivity.
Qed.

(** X10.  With no configuration file and a phantom of at least one convex
    shape, [GenerateData] leaves the filter as it was and builds one
    projector per convex shape, in the order of the phantom: the first one on
    the input of the filter, every other one on the output of the one before
    it, each with the shape rotated, then translated, then rescaled.  The call
    ends as the update of the last projector on the requested region ends. *)
Theorem GenerateData_chain (self : ProjectGeometricPhantomImageFilter)
  (first : ConvexShape) (rest : list ConvexShape)
  (Hfile : m_ConfigFile self = EmptyString)
  (Hphantom : m_GeometricPhantom self = Some (first :: rest)) :
  GenerateData self
  = (self,
     match
       fold_left
         (fun previous convexShape =>
            RayConvexIntersectionOfOutput (GetGeometry self)
              (Rescale (m_PhantomScale self)
                 (Translate (m_OriginOffset self)
                    (Rotate (m_RotationMatrix self) convexShape)))
              previous)
         rest
         (RayConvexIntersectionOfInput (GetGeometry self)
            (Rescale (m_PhantomScale self)
               (Translate (m_OriginOffset self)
                  (Rotate (m_RotationMatrix self) first)))
            (GetInput self))
         (GetRequestedRegion self)
     with
     | inl what => Exception what
     | inr image => Grafted image
     end)
  /\ List.length (fold_left (AddProjector self) (first :: rest) [])
     = S (List.length rest).
Proof.
  assert (Hchain := AddProjector_chain self rest
                      (AddProjector self [] first)
                      (RayConvexIntersectionOfInput (GetGeometry self)
                         (Rescale (m_PhantomScale self)
                            (Translate (m_OriginOffset self)
                               (Rotate (m_RotationMatrix self) first)))
                         (GetInput self)) eq_refl).
  destruct Hchain as [Hback Hlength].
  split.
  - unfold GenerateData, ReadConfigFile. rewrite Hfile. simpl negb. cbv iota.
    rewrite Hphantom. cbv zeta. simpl fold_left. rewrite Hback.
    destruct (fold_left _ rest _ (GetRequestedRegion self)); reflexivity.
  - simpl fold_left. rewrite Hlength. reflexivity.
Qed.

(** X11.  A phantom without any convex shape makes [GenerateData] throw
    "Empty phantom" before any projector is built, whether the phantom is the
    one of the filter (no configuration file) or the one a reader found in the
    configuration file; in the second case the empty phantom has replaced the
    one of the filter. *)
Theorem GenerateData_empty_phantom (self : ProjectGeometricPhantomImageFilter)
  (Hempty :
     (m_ConfigFile self = EmptyString /\ m_GeometricPhantom self = Some [])
     \/ (m_ConfigFile self <> EmptyString /\ m_IsForbildConfigFile self = true
         /\ ForbildPhantomFileReader (m_ConfigFile self) = inr [])
     \/ (m_ConfigFile self <> EmptyString /\ m_IsForbildConfigFile self = false
         /\ GeometricPhantomFileReader (m_ConfigFile self) = inr [])) :
  snd (GenerateData self) = Exception "Empty phantom"
  /\ m_GeometricPhantom (fst (GenerateData self)) = Some [].
Proof.
  unfold GenerateData, ReadConfigFile.
  destruct Hempty as [[Hfile Hphantom]|[(Hfile & Hforbild & Hread)|(Hfile & Hforbild & Hread)]].
  - rewrite Hfile. simpl. rewrite Hphantom. split; [reflexivity | exact Hphantom].
  - destruct (empty (m_ConfigFile self)) eqn:He;
      [apply empty_true in He; contradiction|].
    simpl. rewrite Hforbild, Hread. simpl. split; reflexivity.
  - destruct (empty (m_ConfigFile self)) eqn:He;
      [apply empty_true in He; contradiction|].
    simpl. rewrite Hforbild, Hread. simpl. split; reflexivity.
Qed.

(** X12.  When a configuration file is named, the phantom that had been given
    to the filter plays no part: the call ends the same way for every phantom
    the filter held before, and when the reader returns, its phantom is the
    one the filter holds afterwards. *)
Theorem GenerateData_config_file_overrides (self : ProjectGeometricPhantomImageFilter)
  (before : option (list ConvexShape))
  (Hfile : m_ConfigFile self <> EmptyString) :
  snd (GenerateData (assign_GeometricPhantom self before)) = snd (GenerateData self)
  /\ (forall phantom,
        (if m_IsForbildConfigFile self
         then ForbildPhantomFileReader (m_ConfigFile self)
         else GeometricPhantomFileReader (m_ConfigFile self)) = inr phantom ->
        m_GeometricPhantom (fst (GenerateData self)) = Some phantom).
Proof.
  assert (He : empty (m_ConfigFile self) = false).
  { destruct (empty (m_ConfigFile self)) eqn:He; [|reflexivity].
    apply empty_true in He. contradiction. }
  split.
  - unfold GenerateData, ReadConfigFile. simpl. rewrite He. simpl.
    destruct (m_IsForbildConfigFile self).
    + destruct (ForbildPhantomFileReader (m_ConfigFile self)); reflexivity.
    + destruct (GeometricPhantomFileReader (m_ConfigFile self)); reflexivity.
  - intros phantom Hread.
    rewrite GenerateData_state. unfold ReadConfigFile. rewrite He. simpl negb. cbv iota.
    destruct (m_IsForbildConfigFile self); rewrite Hread; reflexivity.
Qed.

(** X13.  The call never takes the back of an empty vector of projectors, and
    it uses a null pointer in one case only: no configuration file is named
    and no phantom was given to the filter. *)
Theorem GenerateData_undefined (self : ProjectGeometricPhantomImageFilter) :
  snd (GenerateData self) = Undefined
  <-> m_ConfigFile self = EmptyString /\ m_GeometricPhantom self = None.
Proof.
  assert (Hrun : forall read : ProjectGeometricPhantomImageFilter,
            snd (match m_GeometricPhantom read with
                 | None => (read, Undefined)
                 | Some [] => (read, Exception "Empty phantom")
                 | Some ((_ :: _) as cov) =>
                     let projectors := fold_left (AddProjector read) cov [] in
                     match back projectors with
                     | None => (read, Undefined)
                     | Some last =>
                         match last (GetRequestedRegion read) with
                         | inl what => (read, Exception what)
                         | inr image => (read, Grafted image)
                         end
                     end
                 end) = Undefined
            <-> m_GeometricPhantom read = None).
  { intros read.
    destruct (m_GeometricPhantom read) as [[|first rest]|].
    - simpl. split; discriminate.
    - cbv zeta. simpl fold_left.
      destruct (AddProjector_chain read rest (AddProjector read [] first) _ eq_refl)
        as [Hback _].
      rewrite Hback.
      destruct (fold_left _ rest _ (GetRequestedRegion read)); simpl; split; discriminate.
    - simpl. split; reflexivity. }
  unfold GenerateData, ReadConfigFile.
  destruct (empty (m_ConfigFile self)) eqn:He; simpl negb; cbv iota.
  - apply empty_true in He. rewrite (Hrun self). split.
    + intros Hnull. split; assumption.
    + intros [_ Hnull]. exact Hnull.
  - assert (Hfile : m_ConfigFile self <> EmptyString).
    { intros Hfile. apply empty_true in Hfile. rewrite Hfile in He. discriminate. }
    destruct (m_IsForbildConfigFile self).
    + destruct (ForbildPhantomFileReader (m_ConfigFile self)) as [what|phantom].
      * simpl. split; [discriminate | intros [Hf _]; contradiction].
      * rewrite (Hrun (assign_GeometricPhantom self (Some phantom))). simpl.
        split; [discriminate | intros [Hf _]; contradiction].
    + destruct (GeometricPhantomFileReader (m_ConfigFile self)) as [what|phantom].
      * simpl. split; [discriminate | intros [Hf _]; contradiction].
      * rewrite (Hrun (assign_GeometricPhantom self (Some phantom))). simpl.
        split; [discriminate | intros [Hf _]; contradiction].
Qed.

End Filter.

#[local] Existing Instance counting_toolkit.

(** The phantom of the shapes 1, 2 and 3 with the offset 10 and the scale 2:
    the image holds the three placed shapes in the order of the phantom. *)
Example counting_filter_run :
  GenerateData counting_filter = (counting_filter, Grafted [22; 24; 26]%nat).
Proof. reflexivity. Qed.

(** With a configuration file in which the reader finds no shape the three
    shapes of the filter are not projected. *)
Example configured_filter_run :
  snd (GenerateData configured_filter) = Exception "Empty phantom".
Proof. reflexivity. Qed.

(** [GenerateData_chain] on the phantom of the shapes 1, 2 and 3. *)
Lemma GenerateData_chain_witness :
  m_ConfigFile counting_filter = EmptyString
  /\ m_GeometricPhantom counting_filter = Some [1; 2; 3]%nat
  /\ List.length (fold_left (AddProjector counting_filter) [1; 2; 3]%nat []) = 3%nat.
Proof.
  split; [reflexivity|]. split; [reflexivity|].
  apply (proj2 (GenerateData_chain counting_filter 1%nat [2; 3]%nat eq_refl eq_refl)).
Defined.

(** [GenerateData_empty_phantom] on a configuration file without shapes. *)
Lemma GenerateData_empty_phantom_witness :
  (m_ConfigFile configured_filter <> EmptyString
   /\ m_IsForbildConfigFile configured_filter = false
   /\ GeometricPhantomFileReader (m_ConfigFile configured_filter) = inr [])
  /\ snd (GenerateData configured_filter) = Exception "Empty phantom"
  /\ m_GeometricPhantom (fst (GenerateData configured_filter)) = Some [].
Proof.
  assert (H : m_ConfigFile configured_filter <> EmptyString
              /\ m_IsForbildConfigFile configured_filter = false
              /\ GeometricPhantomFileReader (m_ConfigFile configured_filter) = inr []).
  { split; [discriminate|]. split; reflexivity. }
  split; [exact H|].
  apply (GenerateData_empty_phantom configured_filter). right. right. exact H.
Defined.

(** [GenerateData_config_file_overrides] on the same filter. *)
Lemma GenerateData_config_file_overrides_witness :
  m_ConfigFile configured_filter <> EmptyString
  /\ snd (GenerateData (assign_GeometricPhantom configured_filter None))
     = snd (GenerateData configured_filter).
Proof.
  assert (H : m_ConfigFile configured_filter <> EmptyString) by discriminate.
  split; [exact H|].
  apply (proj1 (GenerateData_config_file_overrides configured_filter None H)).
Defined.

End ProjectGeometricPhantomProperties.

(** * The further properties at concrete tables *)

Lemma GetInverse1_singular (M : Matrix) :
  singular 1 M -> GetInverse1 M = ExceptionObject.
Proof.
  intros (v & (i & Hi & Hvi) & Hrows).
  assert (H0 := Hrows 0%nat ltac:(lia)).
  unfold sum_over in H0. simpl in H0.
  replace i with 0%nat in Hvi by lia.
  assert (Hzero : M 0%nat 0%nat = 0).
  { destruct (Rmult_integral (M 0%nat 0%nat) (v 0%nat)); [lra | assumption | contradiction]. }
  unfold GetInverse1.
  destruct (Req_dec_T (M 0%nat 0%nat) 0); [reflexivity | contradiction].
Qed.

Lemma one_bin_tables_nonneg :
  (forall m e, (m < 1)%nat -> (e < 1)%nat -> 0 <= m_MaterialAttenuations one_bin_object m e)
  /\ (forall e, (e < 1)%nat -> 0 <= m_IncidentSpectrum one_bin_object e)
  /\ (forall e, (e < 1)%nat -> 0 <= m_DetectorResponse one_bin_object 0%nat e).
Proof. repeat split; intros; simpl; lra. Qed.

Lemma FischerMatrix_symmetric_witness :
  (0 < 2)%nat /\ (1 < 2)%nat
  /\ FischerMatrix twin_materials_object zero_line_integrals 0%nat 1%nat
     = FischerMatrix twin_materials_object zero_line_integrals 1%nat 0%nat.
Proof.
  split; [lia|]. split; [lia|].
  apply (FischerMatrix_symmetric twin_materials_object zero_line_integrals); lia.
Defined.

Lemma FischerMatrix_positive_semidefinite_witness :
  (forall b, (b < 1)%nat -> 0 <= m_DetectorCounts one_bin_object b)
  /\ 0 <= quadratic_form 1 (FischerMatrix one_bin_object zero_line_integrals) (fun _ => 1).
Proof.
  assert (H : forall b, (b < 1)%nat -> 0 <= m_DetectorCounts one_bin_object b)
    by (intros; simpl; lra).
  split; [exact H|].
  apply (proj2 (FischerMatrix_positive_semidefinite one_bin_object zero_line_integrals
                  (fun _ => 1) H)).
Defined.

Lemma FischerMatrix_no_count_witness :
  (forall b, (b < 1)%nat -> m_DetectorCounts no_count_object b = 0)
  /\ (0 < 1)%nat
  /\ (forall M, singular 1 M -> GetInverse1 M = ExceptionObject)
  /\ GetCramerRaoLowerBound GetInverse1 no_count_object zero_line_integrals
     = ExceptionObject.
Proof.
  assert (H : forall b, (b < 1)%nat -> m_DetectorCounts no_count_object b = 0)
    by (intros; reflexivity).
  split; [exact H|]. split; [lia|]. split; [exact GetInverse1_singular|].
  apply (proj2 (proj2 (FischerMatrix_no_count GetInverse1 no_count_object
                         zero_line_integrals H ltac:(lia)))).
  exact GetInverse1_singular.
Defined.

Lemma matched_lambda (b : nat) :
  (b < 1)%nat -> ForwardModel matched_object zero_line_integrals b = 2.
Proof.
  intros Hb. replace b with 0%nat by lia.
  rewrite ForwardModel_sum. unfold sum_over. simpl.
  rewrite spec_attenuated_zero by (intros; reflexivity).
  simpl. lra.
Qed.

Lemma matched_lambda_pos (lineIntegrals : ParametersType) (b : nat) :
  0 < ForwardModel matched_object lineIntegrals b.
Proof.
  rewrite ForwardModel_sum. unfold sum_over. simpl.
  assert (0 < spec_attenuated matched_object lineIntegrals 0%nat)
    by (apply spec_attenuated_pos; simpl; lra).
  lra.
Qed.

Lemma GetValue_minimal_at_match_witness :
  (forall b, (b < 1)%nat -> 0 < m_DetectorCounts matched_object b)
  /\ (forall b, (b < 1)%nat ->
        ForwardModel matched_object zero_line_integrals b = m_DetectorCounts matched_object b)
  /\ (forall b, (b < 1)%nat -> 0 < ForwardModel matched_object unit_line_integrals b)
  /\ exists least measure,
       GetValue matched_object zero_line_integrals = Some least
       /\ GetValue matched_object unit_line_integrals = Some measure
       /\ least <= measure.
Proof.
  assert (Hc : forall b, (b < 1)%nat -> 0 < m_DetectorCounts matched_object b)
    by (intros; simpl; lra).
  assert (Hm : forall b, (b < 1)%nat ->
                 ForwardModel matched_object zero_line_integrals b
                 = m_DetectorCounts matched_object b)
    by (intros b Hb; rewrite matched_lambda by exact Hb; reflexivity).
  assert (Hp : forall b, (b < 1)%nat ->
                 0 < ForwardModel matched_object unit_line_integrals b)
    by (intros; apply matched_lambda_pos).
  split; [exact Hc|]. split; [exact Hm|]. split; [exact Hp|].
  destruct (GetValue_minimal_at_match matched_object zero_line_integrals
              unit_line_integrals Hc Hm Hp)
    as (least & measure & Hl & Hv & Hle & _).
  exists least, measure. repeat split; assumption.
Defined.

Lemma ForwardModel_antitone_witness :
  (forall m, (m < 1)%nat -> zero_line_integrals m <= unit_line_integrals m)
  /\ ForwardModel one_bin_object unit_line_integrals 0%nat
     <= ForwardModel one_bin_object zero_line_integrals 0%nat.
Proof.
  assert (H : forall m, (m < 1)%nat -> zero_line_integrals m <= unit_line_integrals m)
    by (intros; unfold zero_line_integrals, unit_line_integrals; lra).
  split; [exact H|].
  destruct one_bin_tables_nonneg as (Ha & Hs & Hr).
  apply (ForwardModel_antitone one_bin_object zero_line_integrals unit_line_integrals
           0%nat Ha Hs Hr H).
Defined.

Lemma ForwardModel_bounds_witness :
  (forall m, (m < 1)%nat -> 0 <= unit_line_integrals m)
  /\ 0 <= ForwardModel one_bin_object unit_line_integrals 0%nat
       <= spec_unattenuated one_bin_object 0%nat.
Proof.
  assert (H : forall m, (m < 1)%nat -> 0 <= unit_line_integrals m)
    by (intros; unfold unit_line_integrals; lra).
  split; [exact H|].
  destruct one_bin_tables_nonneg as (Ha & Hs & Hr).
  apply (ForwardModel_bounds one_bin_object unit_line_integrals 0%nat Ha Hs Hr H).
Defined.

Lemma ForwardModel_slope_witness :
  (0 < 1)%nat
  /\ derivable_pt_lim
       (fun t =>
          ForwardModel one_bin_object (shift_line_integral zero_line_integrals 0 t) 0%nat)
       0 (- partial_derivative_a one_bin_object zero_line_integrals 0%nat 0%nat).
Proof.
  split; [lia|].
  apply (proj1 (ForwardModel_slope one_bin_object zero_line_integrals 0%nat 0%nat 0%nat
                  ltac:(lia) ltac:(lia))).
Defined.

Lemma ForwardModel_dark_witness :
  (forall e, (e < 1)%nat -> m_IncidentSpectrum dark_object e = 0)
  /\ (0 < 1)%nat
  /\ ForwardModel dark_object unit_line_integrals 0%nat = 0
  /\ GetValue dark_object unit_line_integrals = None.
Proof.
  assert (H : forall e, (e < 1)%nat -> m_IncidentSpectrum dark_object e = 0)
    by (intros; reflexivity).
  split; [exact H|]. split; [lia|].
  destruct (ForwardModel_dark dark_object unit_line_integrals H) as (Hzero & Hcost & _).
  split; [apply Hzero | apply Hcost; lia].
Defined.
